(** * compute_projects.py: which projects, runtimes and check targets a change selects

    A shallow embedding of [.ci/compute_projects.py] (class
    [ProjectConfiguration]) and the properties its specification states.

    - Project names, platform names and file paths are [string]s.
    - Python [set]s of names are [gset string]; the tables mapping a name to
      a set of names are [gmap string (gset string)].
    - A Python [set] is iterated in hash order, which changes from one
      interpreter run to the next.  Every [for x in some_set] and every
      [sorted(some_set)] therefore goes through an [IterOrder]: an arbitrary
      enumeration of the members of the set.
    - [path_parts[0]] raises [IndexError] on an empty tuple, so the functions
      on file paths return a [result].
    - The [while] loop of [_add_dependencies] is run on fuel; the fuel the
      model gives it is shown to be enough ([add_dependencies_loop_fuel]). *)

From Stdlib Require Import Ascii String.
From stdpp Require Import base gmap sets list strings sorting relations.

Open Scope string_scope.

#[local] Set Warnings "-clear-no-such-hyp".

(** ** Results of fallible code *)

Inductive exn := IndexError | FuelExhausted.

Inductive result (A : Type) :=
  | Ok (a : A)
  | Raise (e : exn).
Arguments Ok {A} a.
Arguments Raise {A} e.

Definition rbind {A B} (m : result A) (k : A → result B) : result B :=
  match m with
  | Ok a => k a
  | Raise e => Raise e
  end.

Definition rmap {A B} (f : A → B) (m : result A) : result B :=
  rbind m (λ a, Ok (f a)).

Notation "x ←ᵣ m ; k" := (rbind m (λ x, k))
  (at level 20, m at level 100, k at level 200, only parsing).

(** ** Python's order on [str] and [sorted] *)

(** [a <= b] on Python strings compares code points from the left; on byte
    strings this is [String.leb]. *)
Definition str_le (a b : string) : Prop := String.leb a b = true.

#[global] Instance str_le_dec : RelDecision str_le.
Proof. intros a b. unfold str_le. apply _. Defined.

(** [sorted(xs)]: the ascending rearrangement of [xs]. *)
Definition sorted (xs : list string) : list string := merge_sort str_le xs.

(** [sep.join(xs)] *)
Definition join (sep : string) (xs : list string) : string := String.concat sep xs.

(** ** Iteration order of a set *)

Record IterOrder := {
  iter :> gset string → list string;
  iter_perm : ∀ s, iter s ≡ₚ elements s
}.

Definition elements_order : IterOrder :=
  {| iter := elements; iter_perm := λ s, reflexivity (elements s) |}.

(** Another order: the one of [elements], backwards. *)
Definition reverse_order : IterOrder :=
  {| iter := λ s, reverse (elements s);
     iter_perm := λ s, reverse_Permutation (elements s) |}.

(** ** [pathlib.Path(p).parts] *)

(** [p.split("/")] *)
Fixpoint split_slash (p : string) : list string :=
  match p with
  | EmptyString => [""]
  | String c rest =>
      if Ascii.eqb c "/"%char then "" :: split_slash rest
      else match split_slash rest with
           | [] => [String c ""]
           | seg :: segs => String c seg :: segs
           end
  end.

(** [posixpath.splitroot] without the drive, which is always empty: the root
    is ["/"] for one leading slash or for three and more, ["//"] for exactly
    two, and empty for a relative path. *)
Definition splitroot (p : string) : string * string :=
  match p with
  | String "/"%char (String "/"%char (String "/"%char rest)) => ("/", "//" +:+ rest)
  | String "/"%char (String "/"%char rest) => ("//", rest)
  | String "/"%char rest => ("/", rest)
  | _ => ("", p)
  end.

Definition is_segment (seg : string) : bool :=
  negb (String.eqb seg "") && negb (String.eqb seg ".").

(** The parts of a path of the POSIX flavour: the root, when there is one,
    then the segments between slashes that are neither empty nor [.].  For
    the relative, slash-separated paths of a diff the Windows flavour gives
    the same parts. *)
Definition path_parts (p : string) : list string :=
  let '(root, rel) := splitroot p in
  let tail := filter (λ seg, is_segment seg = true) (split_slash rel) in
  if String.eqb root "" then tail else root :: tail.

(** ** The configuration tables *)

(** The module constants that [ProjectConfiguration.__init__] and the methods
    read.  Their values are not part of the source file (it elides them), so
    they are the fields of a record every definition below takes. *)
Record Tables := {
  PROJECT_DEPENDENCIES : gmap string (gset string);
  DEPENDENTS_TO_TEST : gmap string (gset string);
  DEPENDENT_RUNTIMES_TO_BUILD : gmap string (gset string);
  DEPENDENT_RUNTIMES_TO_TEST : gmap string (gset string);
  DEPENDENT_RUNTIMES_TO_TEST_NEEDS_RECONFIG : gmap string (gset string);
  PROJECT_CHECK_TARGETS : gmap string string;
  EXCLUDE_LINUX : gset string;
  EXCLUDE_WINDOWS : gset string;
  EXCLUDE_MAC : gset string;
  EXCLUDE_DEPENDENTS_WINDOWS : gset string;
  RUNTIMES : gset string;
  (** a [dict] from tuples of segments to a name, in insertion order *)
  META_PROJECTS : list (list string * string);
  (** only [in] is used on it *)
  SKIP_PROJECTS : list string;
  (** only iterated *)
  SKIP_BUILD_PROJECTS : list string
}.

(** [self.exclusions], the dict built by [__init__]. *)
Definition exclusions (T : Tables) : gmap string (gset string) :=
  <["Linux" := EXCLUDE_LINUX T]>
    (<["Windows" := EXCLUDE_WINDOWS T]>
       (<["Darwin" := EXCLUDE_MAC T]> ∅)).

(** ** The path matcher *)

(** The body of [for match_part, file_part in zip(matcher, file_path)]. *)
Fixpoint path_matches_loop (pairs : list (string * string)) : bool :=
  match pairs with
  | [] => true
  | (match_part, file_part) :: rest =>
      if String.eqb match_part "*" || String.eqb match_part file_part
      then path_matches_loop rest
      else if negb (String.eqb match_part file_part) then false
      else path_matches_loop rest
  end.

Definition _path_matches (matcher file_path : list string) : bool :=
  if (length file_path <? length matcher)%nat then false
  else path_matches_loop (zip matcher file_path).

(** The loop over [META_PROJECTS.items()] followed by the rest of
    [_get_modified_projects_for_file]: [return set()] leaves the function
    from inside the loop, [path_parts[0]] is read after it. *)
Fixpoint meta_projects_loop (T : Tables) (path : list string)
    (items : list (list string * string)) (modified_projects : gset string)
    : result (gset string) :=
  match items with
  | [] =>
      match path with
      | [] => Raise IndexError
      | first :: _ => Ok (modified_projects ∪ {[first]})
      end
  | (meta_path, meta_project) :: rest =>
      if _path_matches meta_path path then
        if bool_decide (meta_project ∈ SKIP_PROJECTS T) then Ok ∅
        else meta_projects_loop T path rest (modified_projects ∪ {[meta_project]})
      else meta_projects_loop T path rest modified_projects
  end.

Definition _get_modified_projects_for_file (T : Tables) (modified_file : string)
    : result (gset string) :=
  meta_projects_loop T (path_parts modified_file) (META_PROJECTS T) ∅.

Fixpoint get_modified_projects_loop (T : Tables) (modified_files : list string)
    (modified_projects : gset string) : result (gset string) :=
  match modified_files with
  | [] => Ok modified_projects
  | modified_file :: rest =>
      ps ←ᵣ _get_modified_projects_for_file T modified_file;
      get_modified_projects_loop T rest (modified_projects ∪ ps)
  end.

Definition get_modified_projects (T : Tables) (modified_files : list string)
    : result (gset string) :=
  get_modified_projects_loop T modified_files ∅.

(** ** The selection engine *)

Definition _exclude_platform_projects (T : Tables) (projects : gset string)
    (platform_name : string) : gset string :=
  projects ∖ default ∅ (exclusions T !! platform_name).

(** [if project in table: acc.update(table[project])] *)
Definition update_from (table : gmap string (gset string)) (acc : gset string)
    (project : string) : gset string :=
  match table !! project with
  | Some names => acc ∪ names
  | None => acc
  end.

(** The body of the loop of [_compute_projects_to_test]. *)
Definition projects_to_test_step (T : Tables) (platform_name : string)
    (projects_to_test : gset string) (project : string) : gset string :=
  if bool_decide (project ∈ RUNTIMES T) then projects_to_test
  else
    let projects_to_test :=
      match PROJECT_CHECK_TARGETS T !! project with
      | Some _ => projects_to_test ∪ {[project]}
      | None => projects_to_test
      end in
    match DEPENDENTS_TO_TEST T !! project with
    | Some dependents =>
        let dependents :=
          if bool_decide (platform_name = "Windows")
          then dependents ∖ EXCLUDE_DEPENDENTS_WINDOWS T
          else dependents in
        projects_to_test ∪ dependents
    | None => projects_to_test
    end.

Definition _compute_projects_to_test (order : IterOrder) (T : Tables)
    (modified_projects : gset string) (platform_name : string) : gset string :=
  _exclude_platform_projects T
    (foldl (projects_to_test_step T platform_name) ∅ (order modified_projects))
    platform_name.

Definition _compute_runtimes_to_test (order : IterOrder) (T : Tables)
    (modified_projects : gset string) (platform_name : string) : gset string :=
  _exclude_platform_projects T
    (foldl (update_from (DEPENDENT_RUNTIMES_TO_TEST T)) ∅ (order modified_projects))
    platform_name.

Definition _compute_runtimes_to_test_needs_reconfig (order : IterOrder) (T : Tables)
    (modified_projects : gset string) (platform_name : string) : gset string :=
  _exclude_platform_projects T
    (foldl (update_from (DEPENDENT_RUNTIMES_TO_TEST_NEEDS_RECONFIG T)) ∅
       (order modified_projects))
    platform_name.

Definition _compute_runtimes_to_build (order : IterOrder) (T : Tables)
    (runtimes_to_test modified_projects : gset string) (platform_name : string)
    : gset string :=
  _exclude_platform_projects T
    (foldl (update_from (DEPENDENT_RUNTIMES_TO_BUILD T)) runtimes_to_test
       (order modified_projects))
    platform_name.

(** One run of [for project in list(projects_with_deps)]: the list is a
    snapshot, the updates go to the set. *)
Definition add_dependencies_pass (order : IterOrder) (T : Tables)
    (projects_with_deps : gset string) : gset string :=
  foldl (update_from (PROJECT_DEPENDENCIES T)) projects_with_deps
    (order projects_with_deps).

(** [while current_count != len(projects_with_deps)], on fuel. *)
Fixpoint add_dependencies_loop (order : IterOrder) (T : Tables)
    (fuel current_count : nat) (projects_with_deps : gset string)
    : result (gset string) :=
  if bool_decide (current_count ≠ size projects_with_deps) then
    match fuel with
    | 0 => Raise FuelExhausted
    | S fuel' =>
        add_dependencies_loop order T fuel' (size projects_with_deps)
          (add_dependencies_pass order T projects_with_deps)
    end
  else Ok projects_with_deps.

(** Every name some project depends on. *)
Definition dependency_range (T : Tables) : gset string :=
  ⋃ (map_to_list (PROJECT_DEPENDENCIES T)).*2.

(** The loop runs at most once per name it can still add, and once more to
    see that nothing was added. *)
Definition add_dependencies_fuel (T : Tables) (projects : gset string) : nat :=
  S (size (projects ∪ dependency_range T)).

Definition _add_dependencies (order : IterOrder) (T : Tables)
    (projects runtimes : gset string) : result (gset string) :=
  projects_with_deps ←ᵣ
    add_dependencies_loop order T (add_dependencies_fuel T projects) 0 projects;
  Ok (foldl (update_from (PROJECT_DEPENDENCIES T)) projects_with_deps (order runtimes)).

(** [for project in SKIP_BUILD_PROJECTS: projects_to_build.discard(project)] *)
Definition discard_all (names : list string) (projects : gset string) : gset string :=
  foldl (λ acc project, acc ∖ {[project]}) projects names.

(** The local variables of [get_env_variables] when it reaches [return]. *)
Record Selection := {
  sel_projects_to_test : gset string;
  sel_runtimes_to_test : gset string;
  sel_runtimes_to_test_reconfig : gset string;
  sel_runtimes_to_build : gset string;
  sel_projects_to_build : gset string
}.

Definition compute_selection (order : IterOrder) (T : Tables)
    (modified_files : list string) (platform_name : string) : result Selection :=
  modified_projects ←ᵣ get_modified_projects T modified_files;
  let projects_to_test :=
    _compute_projects_to_test order T modified_projects platform_name in
  let runtimes_to_test :=
    _compute_runtimes_to_test order T modified_projects platform_name in
  let runtimes_to_test_reconfig :=
    _compute_runtimes_to_test_needs_reconfig order T modified_projects platform_name in
  let runtimes_to_build :=
    _compute_runtimes_to_build order T (runtimes_to_test ∪ runtimes_to_test_reconfig)
      modified_projects platform_name in
  projects_to_build ←ᵣ _add_dependencies order T projects_to_test runtimes_to_build;
  let projects_to_build := discard_all (SKIP_BUILD_PROJECTS T) projects_to_build in
  Ok {| sel_projects_to_test := projects_to_test;
        sel_runtimes_to_test := runtimes_to_test;
        sel_runtimes_to_test_reconfig := runtimes_to_test_reconfig;
        sel_runtimes_to_build := runtimes_to_build;
        sel_projects_to_build := projects_to_build |}.

(** ** The environment builder *)

(** The dict [get_env_variables] returns; one field per key. *)
Record EnvVariables := {
  projects_to_build : string;
  project_check_targets : string;
  runtimes_to_build : string;
  runtimes_check_targets : string;
  runtimes_check_targets_needs_reconfig : string;
  enable_cir : string
}.

(** [self.check_targets[p] for p in names if p in self.check_targets] *)
Definition check_targets_of (order : IterOrder) (T : Tables) (names : gset string)
    : list string :=
  omap (λ p, PROJECT_CHECK_TARGETS T !! p) (order names).

Definition render (order : IterOrder) (T : Tables) (sel : Selection) : EnvVariables :=
  {| projects_to_build := join ";" (sorted (order (sel_projects_to_build sel)));
     project_check_targets :=
       join " " (sorted (check_targets_of order T (sel_projects_to_test sel)));
     runtimes_to_build := join ";" (sorted (order (sel_runtimes_to_build sel)));
     runtimes_check_targets :=
       join " " (sorted (check_targets_of order T (sel_runtimes_to_test sel)));
     runtimes_check_targets_needs_reconfig :=
       join " " (sorted (check_targets_of order T (sel_runtimes_to_test_reconfig sel)));
     enable_cir :=
       if bool_decide ("CIR" ∈ sel_projects_to_build sel) then "ON" else "OFF" |}.

Definition get_env_variables (order : IterOrder) (T : Tables)
    (modified_files : list string) (platform_name : string) : result EnvVariables :=
  rmap (render order T) (compute_selection order T modified_files platform_name).

(** ** A configuration to run the model on *)

Definition names (l : list string) : gset string := list_to_set l.

Definition table (l : list (string * list string)) : gmap string (gset string) :=
  list_to_map (prod_map id names <$> l).

(** Modelled from the spec: the values of the table constants, which the
    source file leaves out.  The entries are the ones that the example
    scenarios of the specification and the expected values of
    [compute_projects_test.py] show.  [SKIP_BUILD_PROJECTS] holds [lit]
    alone: [enable_cir] is read after the discards, so that with [CIR] in it
    the flag would be [OFF] on every input. *)
Definition llvm_tables : Tables :=
  {| PROJECT_DEPENDENCIES := table
       [ ("llvm", []); ("clang", ["llvm"]); ("CIR", ["clang"; "mlir"]);
         ("bolt", ["clang"; "lld"; "llvm"]);
         ("clang-tools-extra", ["clang"; "llvm"]);
         ("compiler-rt", ["clang"; "lld"]); ("libc", ["clang"; "lld"]);
         ("openmp", ["clang"; "lld"]); ("flang", ["llvm"; "clang"]);
         ("flang-rt", ["flang"]); ("lldb", ["llvm"; "clang"]);
         ("libclc", ["llvm"; "clang"]); ("lld", ["llvm"]); ("mlir", ["llvm"]);
         ("polly", ["llvm"]) ];
     DEPENDENTS_TO_TEST := table
       [ ("llvm", ["bolt"; "clang"; "clang-tools-extra"; "lld"; "lldb"; "mlir";
                   "polly"; "flang"]);
         ("lld", ["bolt"; "cross-project-tests"]);
         ("clang", ["clang-tools-extra"; "cross-project-tests"; "lldb"]);
         ("mlir", ["flang"]);
         (".ci", ["llvm"; "clang"; "CIR"; "lld"; "lldb"; "bolt";
                  "clang-tools-extra"; "mlir"; "polly"; "flang"; "libclc";
                  "openmp"]) ];
     DEPENDENT_RUNTIMES_TO_BUILD := table
       [ ("lldb", ["libcxx"; "libcxxabi"; "libunwind"]) ];
     DEPENDENT_RUNTIMES_TO_TEST := table
       [ ("clang", ["compiler-rt"]); ("clang-tools-extra", ["libc"]);
         ("libc", ["libc"]); ("compiler-rt", ["compiler-rt"]);
         ("flang", ["flang-rt"]); ("flang-rt", ["flang-rt"]);
         (".ci", ["compiler-rt"; "libc"; "flang-rt"]) ];
     DEPENDENT_RUNTIMES_TO_TEST_NEEDS_RECONFIG := table
       [ ("llvm", ["libcxx"; "libcxxabi"; "libunwind"]);
         ("clang", ["libcxx"; "libcxxabi"; "libunwind"]);
         (".ci", ["libcxx"; "libcxxabi"; "libunwind"]) ];
     PROJECT_CHECK_TARGETS := list_to_map
       [ ("clang-tools-extra", "check-clang-tools");
         ("compiler-rt", "check-compiler-rt");
         ("cross-project-tests", "check-cross-project");
         ("libcxx", "check-cxx"); ("libcxxabi", "check-cxxabi");
         ("libunwind", "check-unwind"); ("lldb", "check-lldb");
         ("llvm", "check-llvm"); ("clang", "check-clang");
         ("CIR", "check-clang-cir"); ("bolt", "check-bolt");
         ("lld", "check-lld"); ("flang", "check-flang");
         ("flang-rt", "check-flang-rt"); ("libc", "check-libc");
         ("mlir", "check-mlir"); ("openmp", "check-openmp");
         ("polly", "check-polly"); ("lit", "check-lit") ];
     EXCLUDE_LINUX := names ["cross-project-tests"; "openmp"];
     EXCLUDE_WINDOWS := names
       [ "cross-project-tests"; "openmp"; "libc"; "lldb"; "bolt"; "libcxx";
         "libcxxabi"; "libunwind"; "flang-rt" ];
     EXCLUDE_MAC := names
       [ "bolt"; "compiler-rt"; "cross-project-tests"; "flang"; "flang-rt";
         "libc"; "lldb"; "openmp"; "polly"; "libcxx"; "libcxxabi"; "libunwind" ];
     EXCLUDE_DEPENDENTS_WINDOWS := names ["flang"];
     RUNTIMES := names
       [ "libcxx"; "libcxxabi"; "libunwind"; "compiler-rt"; "libc"; "flang-rt" ];
     META_PROJECTS :=
       [ (["clang"; "lib"; "CIR"], "CIR"); (["clang"; "test"; "CIR"], "CIR");
         (["clang"; "include"; "clang"; "CIR"], "CIR"); (["*"; "docs"], "docs");
         (["llvm"; "utils"; "gn"], "gn");
         ([".github"; "workflows"; "premerge.yaml"], ".ci");
         (["third-party"], ".ci"); (["llvm"; "utils"; "lit"], "lit") ];
     SKIP_PROJECTS := ["docs"; "gn"];
     SKIP_BUILD_PROJECTS := ["lit"] |}.

(** * The vocabulary of the properties *)

(** [key] is a key of [table] and [x] is a member of its value. *)
Definition maps_to (table : gmap string (gset string)) (key x : string) : Prop :=
  ∃ names, table !! key = Some names ∧ x ∈ names.

(** The specification's words for a match: the path has at least as many
    segments as the pattern, and every pattern segment equals the path
    segment at its position or is the wildcard. *)
Definition matches (pattern path : list string) : Prop :=
  (length pattern ≤ length path)%nat ∧
  ∀ i seg, pattern !! i = Some seg → seg = "*" ∨ path !! i = Some seg.

(** Some entry of [items] matches [path] and names a project to skip. *)
Definition skip_match (T : Tables) (items : list (list string * string))
    (path : list string) : Prop :=
  ∃ pattern project,
    (pattern, project) ∈ items ∧ matches pattern path ∧ project ∈ SKIP_PROJECTS T.

(** The exclusion set [_exclude_platform_projects] subtracts. *)
Definition excluded_on (T : Tables) (platform_name : string) : gset string :=
  default ∅ (exclusions T !! platform_name).

(** What the modified project [m] adds to the projects to test: itself when
    it has a check target, and its dependents, on Windows without the ones
    of [EXCLUDE_DEPENDENTS_WINDOWS]; nothing when [m] is a runtime. *)
Definition adds_to_test (T : Tables) (platform_name m p : string) : Prop :=
  (m ∉ RUNTIMES T) ∧
  ((p = m ∧ is_Some (PROJECT_CHECK_TARGETS T !! m)) ∨
   (maps_to (DEPENDENTS_TO_TEST T) m p ∧
    (platform_name = "Windows" → p ∉ EXCLUDE_DEPENDENTS_WINDOWS T))).

(** [d] is a direct dependency of [p] in the dependency graph. *)
Definition depends_on (T : Tables) (p d : string) : Prop :=
  maps_to (PROJECT_DEPENDENCIES T) p d.

(** [s] has the direct dependencies of all its members. *)
Definition closed (T : Tables) (s : gset string) : Prop :=
  ∀ p d, p ∈ s → depends_on T p d → d ∈ s.

(** The five sets of a run, member by member, from the modified projects
    [m]: no iteration order and no fuel appear. *)
Record selection_spec (T : Tables) (platform_name : string) (m : gset string)
    (sel : Selection) : Prop := {
  spec_projects_to_test : ∀ p,
    p ∈ sel_projects_to_test sel ↔
    (∃ x, x ∈ m ∧ adds_to_test T platform_name x p) ∧ p ∉ excluded_on T platform_name;
  spec_runtimes_to_test : ∀ p,
    p ∈ sel_runtimes_to_test sel ↔
    (∃ x, x ∈ m ∧ maps_to (DEPENDENT_RUNTIMES_TO_TEST T) x p) ∧
    p ∉ excluded_on T platform_name;
  spec_runtimes_to_test_reconfig : ∀ p,
    p ∈ sel_runtimes_to_test_reconfig sel ↔
    (∃ x, x ∈ m ∧ maps_to (DEPENDENT_RUNTIMES_TO_TEST_NEEDS_RECONFIG T) x p) ∧
    p ∉ excluded_on T platform_name;
  spec_runtimes_to_build : ∀ p,
    p ∈ sel_runtimes_to_build sel ↔
    (p ∈ sel_runtimes_to_test sel ∪ sel_runtimes_to_test_reconfig sel ∨
     ∃ x, x ∈ m ∧ maps_to (DEPENDENT_RUNTIMES_TO_BUILD T) x p) ∧
    p ∉ excluded_on T platform_name;
  spec_projects_to_build : ∀ p,
    p ∈ sel_projects_to_build sel ↔
    ((∃ q, q ∈ sel_projects_to_test sel ∧ rtc (depends_on T) q p) ∨
     (∃ q, q ∈ sel_runtimes_to_build sel ∧ depends_on T q p)) ∧
    p ∉ SKIP_BUILD_PROJECTS T
}.

(** [out] lists, in ascending order of the target names and with single
    spaces between them, the check targets of the members of [members] that
    have one. *)
Definition in_target_order (T : Tables) (members : gset string) (out : string) : Prop :=
  ∃ targets,
    out = join " " targets ∧
    Sorted str_le targets ∧
    targets ≡ₚ omap (λ p, PROJECT_CHECK_TARGETS T !! p) (elements members).

(** The specification's words: the members are taken in ascending order of
    their own names, and the targets follow that order. *)
Definition in_project_order (T : Tables) (members : gset string) (out : string) : Prop :=
  out = join " " (omap (λ p, PROJECT_CHECK_TARGETS T !! p) (sorted (elements members))).

(** No entry that matches [path] names a project to skip, decided. *)
Definition no_skip_matchb (T : Tables) (path : list string) : bool :=
  forallb (λ entry, negb (_path_matches entry.1 path &&
                          bool_decide (entry.2 ∈ SKIP_PROJECTS T)))
    (META_PROJECTS T).

(** A configuration in which a project that is built needs a project that
    the platform excludes. *)
Definition excluded_dependency_tables : Tables :=
  {| PROJECT_DEPENDENCIES := table [("app", ["lib"])];
     DEPENDENTS_TO_TEST := ∅;
     DEPENDENT_RUNTIMES_TO_BUILD := ∅;
     DEPENDENT_RUNTIMES_TO_TEST := ∅;
     DEPENDENT_RUNTIMES_TO_TEST_NEEDS_RECONFIG := ∅;
     PROJECT_CHECK_TARGETS := list_to_map [("app", "check-app"); ("lib", "check-lib")];
     EXCLUDE_LINUX := names ["lib"];
     EXCLUDE_WINDOWS := ∅;
     EXCLUDE_MAC := ∅;
     EXCLUDE_DEPENDENTS_WINDOWS := ∅;
     RUNTIMES := ∅;
     META_PROJECTS := [];
     SKIP_PROJECTS := [];
     SKIP_BUILD_PROJECTS := [] |}.

(** [OFF < ON] on the values of [enable_cir]. *)
Definition flag_le (a b : string) : Prop := a = "ON" → b = "ON".

(** The tables with the three platform exclusion sets and the Windows subset
    of dependents emptied. *)
Definition without_exclusions (T : Tables) : Tables :=
  {| PROJECT_DEPENDENCIES := PROJECT_DEPENDENCIES T;
     DEPENDENTS_TO_TEST := DEPENDENTS_TO_TEST T;
     DEPENDENT_RUNTIMES_TO_BUILD := DEPENDENT_RUNTIMES_TO_BUILD T;
     DEPENDENT_RUNTIMES_TO_TEST := DEPENDENT_RUNTIMES_TO_TEST T;
     DEPENDENT_RUNTIMES_TO_TEST_NEEDS_RECONFIG :=
       DEPENDENT_RUNTIMES_TO_TEST_NEEDS_RECONFIG T;
     PROJECT_CHECK_TARGETS := PROJECT_CHECK_TARGETS T;
     EXCLUDE_LINUX := ∅;
     EXCLUDE_WINDOWS := ∅;
     EXCLUDE_MAC := ∅;
     EXCLUDE_DEPENDENTS_WINDOWS := ∅;
     RUNTIMES := RUNTIMES T;
     META_PROJECTS := META_PROJECTS T;
     SKIP_PROJECTS := SKIP_PROJECTS T;
     SKIP_BUILD_PROJECTS := SKIP_BUILD_PROJECTS T |}.

(** A name no table has as a key: it has no check target and no entry in
    the table of dependents or in one of the three tables of runtimes. *)
Definition unknown_project (T : Tables) (x : string) : Prop :=
  PROJECT_CHECK_TARGETS T !! x = None ∧
  DEPENDENTS_TO_TEST T !! x = None ∧
  DEPENDENT_RUNTIMES_TO_TEST T !! x = None ∧
  DEPENDENT_RUNTIMES_TO_TEST_NEEDS_RECONFIG T !! x = None ∧
  DEPENDENT_RUNTIMES_TO_BUILD T !! x = None.

(** [out] lists the members of [members], once each, in ascending order and
    with [;] between them. *)
Definition in_name_order (members : gset string) (out : string) : Prop :=
  ∃ listed,
    out = join ";" listed ∧
    Sorted str_le listed ∧
    NoDup listed ∧
    ∀ x, x ∈ listed ↔ x ∈ members.

(** The mapping of a run that selects nothing. *)
Definition empty_env : EnvVariables :=
  {| projects_to_build := ""; project_check_targets := "";
     runtimes_to_build := ""; runtimes_check_targets := "";
     runtimes_check_targets_needs_reconfig := ""; enable_cir := "OFF" |}.

(** The tables with another value of [SKIP_BUILD_PROJECTS]. *)
Definition with_skip_build (T : Tables) (skip_build : list string) : Tables :=
  {| PROJECT_DEPENDENCIES := PROJECT_DEPENDENCIES T;
     DEPENDENTS_TO_TEST := DEPENDENTS_TO_TEST T;
     DEPENDENT_RUNTIMES_TO_BUILD := DEPENDENT_RUNTIMES_TO_BUILD T;
     DEPENDENT_RUNTIMES_TO_TEST := DEPENDENT_RUNTIMES_TO_TEST T;
     DEPENDENT_RUNTIMES_TO_TEST_NEEDS_RECONFIG :=
       DEPENDENT_RUNTIMES_TO_TEST_NEEDS_RECONFIG T;
     PROJECT_CHECK_TARGETS := PROJECT_CHECK_TARGETS T;
     EXCLUDE_LINUX := EXCLUDE_LINUX T;
     EXCLUDE_WINDOWS := EXCLUDE_WINDOWS T;
     EXCLUDE_MAC := EXCLUDE_MAC T;
     EXCLUDE_DEPENDENTS_WINDOWS := EXCLUDE_DEPENDENTS_WINDOWS T;
     RUNTIMES := RUNTIMES T;
     META_PROJECTS := META_PROJECTS T;
     SKIP_PROJECTS := SKIP_PROJECTS T;
     SKIP_BUILD_PROJECTS := skip_build |}.




(** The mapping a test of [compute_projects_test.py] expects. *)
Definition expected (pb pct rb rct rctr cir : string) : result EnvVariables :=
  Ok {| projects_to_build := pb; project_check_targets := pct;
        runtimes_to_build := rb; runtimes_check_targets := rct;
        runtimes_check_targets_needs_reconfig := rctr; enable_cir := cir |}.

(** * Properties *)


(** ** The order on strings and [sorted] *)

Lemma str_le_compare a b : str_le a b ↔ String.compare a b ≠ Gt.
Proof.
  unfold str_le, String.leb. destruct (String.compare a b); split; congruence.
Qed.

#[global] Instance str_le_total : Total str_le.
Proof. intros a b. apply String.leb_total. Qed.

#[global] Instance str_le_antisymm : AntiSymm (=) str_le.
Proof. intros a b. apply String.leb_antisym. Qed.

#[global] Instance str_le_trans : Transitive str_le.
Proof.
  intros a. induction a as [|x a IH]; intros b c; rewrite !str_le_compare.
  - destruct b, c; simpl; congruence.
  - destruct b as [|y b], c as [|z c]; simpl; try congruence.
    specialize (IH b c). rewrite !str_le_compare in IH.
    unfold Ascii.compare.
    destruct (N.compare_spec (N_of_ascii x) (N_of_ascii y)) as [Hxy|Hxy|Hxy];
      destruct (N.compare_spec (N_of_ascii y) (N_of_ascii z)) as [Hyz|Hyz|Hyz];
      destruct (N.compare_spec (N_of_ascii x) (N_of_ascii z)) as [Hxz|Hxz|Hxz];
      try congruence; try lia; auto.
Qed.

Lemma sorted_Sorted xs : Sorted str_le (sorted xs).
Proof. apply Sorted_merge_sort, _. Qed.

Lemma sorted_Permutation xs : sorted xs ≡ₚ xs.
Proof. apply merge_sort_Permutation. Qed.

(** [sorted] does not depend on the order its argument comes in. *)
Lemma sorted_perm xs ys : xs ≡ₚ ys → sorted xs = sorted ys.
Proof.
  intros Hperm. apply (Sorted_unique str_le); try apply sorted_Sorted.
  by rewrite !sorted_Permutation.
Qed.

(** ** Iterating a set *)

Lemma elem_of_iter (order : IterOrder) (s : gset string) (x : string) :
  x ∈ order s ↔ x ∈ s.
Proof. by rewrite (iter_perm order s), elem_of_elements. Qed.

Lemma iter_orders_perm (o1 o2 : IterOrder) (s : gset string) : o1 s ≡ₚ o2 s.
Proof. by rewrite (iter_perm o1 s), (iter_perm o2 s). Qed.

Lemma elem_of_update_from table acc project x :
  x ∈ update_from table acc project ↔ x ∈ acc ∨ maps_to table project x.
Proof.
  unfold update_from, maps_to. destruct (table !! project) as [ns|].
  - rewrite elem_of_union. naive_solver.
  - naive_solver.
Qed.

Lemma elem_of_foldl_update_from table (l : list string) acc x :
  x ∈ foldl (update_from table) acc l ↔
  x ∈ acc ∨ ∃ key, key ∈ l ∧ maps_to table key x.
Proof.
  revert acc. induction l as [|k l IH]; intros acc; simpl.
  - split; [auto|]. intros [?|(key & Hin & _)]; [done|]. by apply elem_of_nil in Hin.
  - rewrite IH, elem_of_update_from. setoid_rewrite elem_of_cons. naive_solver.
Qed.

Lemma elem_of_discard_all (l : list string) (s : gset string) x :
  x ∈ discard_all l s ↔ x ∈ s ∧ x ∉ l.
Proof.
  unfold discard_all. revert s. induction l as [|k l IH]; intros s; simpl.
  - rewrite elem_of_nil. tauto.
  - rewrite IH, elem_of_difference, elem_of_singleton, not_elem_of_cons. tauto.
Qed.

(** ** The path matcher *)

Lemma path_matches_loop_spec (matcher file_path : list string) :
  path_matches_loop (zip matcher file_path) = true ↔
  ∀ i a b, matcher !! i = Some a → file_path !! i = Some b → a = "*" ∨ a = b.
Proof.
  revert file_path. induction matcher as [|a matcher IH]; intros [|b file_path]; simpl.
  - split; [intros _ i ?? Hi; by rewrite lookup_nil in Hi | done].
  - split; [intros _ i ?? Hi; by rewrite lookup_nil in Hi | done].
  - split; [intros _ i ?? _ Hi; by rewrite lookup_nil in Hi | done].
  - destruct (String.eqb_spec a "*") as [Hstar|Hstar];
      destruct (String.eqb_spec a b) as [Heq|Hne]; simpl; rewrite ?IH.
    1-3: split;
      [ intros Hrest [|i] ?? ; simpl; [intros [= <-] [= <-]; auto | apply Hrest]
      | intros Hall i ? ? ??; by apply (Hall (S i)) ].
    split; [done|]. intros Hall. destruct (Hall 0 a b); done.
Qed.

Lemma _path_matches_spec (matcher file_path : list string) :
  _path_matches matcher file_path = true ↔ matches matcher file_path.
Proof.
  unfold _path_matches, matches.
  destruct (Nat.ltb_spec (length file_path) (length matcher)) as [Hlt|Hge].
  - split; [done | lia].
  - rewrite path_matches_loop_spec. split.
    + intros Hall. split; [done|]. intros i seg Hi.
      destruct (lookup_lt_is_Some_2 file_path i) as [b Hb].
      { apply lookup_lt_Some in Hi. lia. }
      destruct (Hall i seg b Hi Hb); [by left | right; congruence].
    + intros [_ Hall] i a b Ha Hb. destruct (Hall i a Ha); [by left|right; congruence].
Qed.

Lemma meta_projects_loop_skip T path items acc :
  skip_match T items path → meta_projects_loop T path items acc = Ok ∅.
Proof.
  revert acc. induction items as [|[pat proj] items IH]; intros acc (p & q & Hin & Hm & Hs).
  - by apply elem_of_nil in Hin.
  - simpl. destruct (_path_matches pat path) eqn:Hpat.
    + case_bool_decide as Hskip; [done|]. apply IH.
      apply elem_of_cons in Hin as [[= -> ->]|Hin]; [done|]. by exists p, q.
    + apply IH. apply elem_of_cons in Hin as [[= -> ->]|Hin].
      * apply _path_matches_spec in Hm. congruence.
      * by exists p, q.
Qed.

Lemma skip_match_cons T pat proj items path :
  ¬ skip_match T ((pat, proj) :: items) path →
  ¬ skip_match T items path ∧ (matches pat path → proj ∉ SKIP_PROJECTS T).
Proof.
  intros Hno. split.
  - intros (p & q & Hin & ?). apply Hno. exists p, q. by rewrite elem_of_cons; auto.
  - intros Hm Hs. apply Hno. exists pat, proj. by rewrite elem_of_cons; auto.
Qed.

Lemma meta_projects_loop_no_segment T items acc :
  ¬ skip_match T items [] → meta_projects_loop T [] items acc = Raise IndexError.
Proof.
  revert acc. induction items as [|[pat proj] items IH]; intros acc Hno; [done|].
  apply skip_match_cons in Hno as [Hno Hhead]. simpl.
  destruct (_path_matches pat []) eqn:Hpat; [|by apply IH].
  rewrite bool_decide_false; [by apply IH|].
  by apply Hhead, _path_matches_spec.
Qed.

Lemma meta_projects_loop_segments T first rest items acc :
  ¬ skip_match T items (first :: rest) →
  ∃ projects, meta_projects_loop T (first :: rest) items acc = Ok projects ∧
    ∀ p, p ∈ projects ↔
      p ∈ acc ∨ p = first ∨ ∃ pat, (pat, p) ∈ items ∧ matches pat (first :: rest).
Proof.
  revert acc. induction items as [|[pat proj] items IH]; intros acc Hno.
  - eexists; split; [done|]. intros p. rewrite elem_of_union, elem_of_singleton.
    split; [intros [?|?]; auto|]. intros [?|[?|(? & Hin & _)]]; auto.
    by apply elem_of_nil in Hin.
  - apply skip_match_cons in Hno as [Hno Hhead]. simpl.
    destruct (_path_matches pat (first :: rest)) eqn:Hpat.
    + apply _path_matches_spec in Hpat.
      rewrite bool_decide_false by auto.
      destruct (IH (acc ∪ {[proj]}) Hno) as (projects & -> & Hspec).
      eexists; split; [done|]. intros p. rewrite Hspec, elem_of_union, elem_of_singleton.
      setoid_rewrite elem_of_cons. naive_solver.
    + destruct (IH acc Hno) as (projects & -> & Hspec).
      eexists; split; [done|]. intros p. rewrite Hspec.
      setoid_rewrite elem_of_cons. split; [naive_solver|].
      intros [?|[?|(pat' & [[= -> ->]|Hin] & Hm)]]; auto.
      * apply _path_matches_spec in Hm. congruence.
      * right; right. eauto.
Qed.

(** ** The test and runtime sets *)

Lemma elem_of_exclude_platform_projects T projects platform_name x :
  x ∈ _exclude_platform_projects T projects platform_name ↔
  x ∈ projects ∧ x ∉ excluded_on T platform_name.
Proof. unfold _exclude_platform_projects, excluded_on. apply elem_of_difference. Qed.

Lemma elem_of_projects_to_test_step T platform_name acc m p :
  p ∈ projects_to_test_step T platform_name acc m ↔
  p ∈ acc ∨ adds_to_test T platform_name m p.
Proof.
  unfold projects_to_test_step, adds_to_test, maps_to.
  case_bool_decide as Hrt; [naive_solver|].
  destruct (PROJECT_CHECK_TARGETS T !! m) as [target|] eqn:Htarget;
    destruct (DEPENDENTS_TO_TEST T !! m) as [dependents|] eqn:Hdeps;
    try case_bool_decide;
    rewrite ?elem_of_union, ?elem_of_difference, ?elem_of_singleton;
    rewrite ?is_Some_alt; naive_solver.
Qed.

Lemma elem_of_foldl_projects_to_test_step T platform_name (l : list string) acc p :
  p ∈ foldl (projects_to_test_step T platform_name) acc l ↔
  p ∈ acc ∨ ∃ m, m ∈ l ∧ adds_to_test T platform_name m p.
Proof.
  revert acc. induction l as [|k l IH]; intros acc; simpl.
  - split; [auto|]. intros [?|(m & Hin & _)]; [done|]. by apply elem_of_nil in Hin.
  - rewrite IH, elem_of_projects_to_test_step. setoid_rewrite elem_of_cons. naive_solver.
Qed.

Lemma elem_of_compute_projects_to_test order T modified platform_name p :
  p ∈ _compute_projects_to_test order T modified platform_name ↔
  (∃ m, m ∈ modified ∧ adds_to_test T platform_name m p) ∧
  p ∉ excluded_on T platform_name.
Proof.
  unfold _compute_projects_to_test.
  rewrite elem_of_exclude_platform_projects, elem_of_foldl_projects_to_test_step.
  setoid_rewrite elem_of_iter. rewrite elem_of_empty. naive_solver.
Qed.

Lemma elem_of_compute_runtimes_to_test order T modified platform_name p :
  p ∈ _compute_runtimes_to_test order T modified platform_name ↔
  (∃ m, m ∈ modified ∧ maps_to (DEPENDENT_RUNTIMES_TO_TEST T) m p) ∧
  p ∉ excluded_on T platform_name.
Proof.
  unfold _compute_runtimes_to_test.
  rewrite elem_of_exclude_platform_projects, elem_of_foldl_update_from.
  setoid_rewrite elem_of_iter. rewrite elem_of_empty. naive_solver.
Qed.

Lemma elem_of_compute_runtimes_to_test_needs_reconfig order T modified platform_name p :
  p ∈ _compute_runtimes_to_test_needs_reconfig order T modified platform_name ↔
  (∃ m, m ∈ modified ∧ maps_to (DEPENDENT_RUNTIMES_TO_TEST_NEEDS_RECONFIG T) m p) ∧
  p ∉ excluded_on T platform_name.
Proof.
  unfold _compute_runtimes_to_test_needs_reconfig.
  rewrite elem_of_exclude_platform_projects, elem_of_foldl_update_from.
  setoid_rewrite elem_of_iter. rewrite elem_of_empty. naive_solver.
Qed.

Lemma elem_of_compute_runtimes_to_build order T runtimes modified platform_name p :
  p ∈ _compute_runtimes_to_build order T runtimes modified platform_name ↔
  (p ∈ runtimes ∨ ∃ m, m ∈ modified ∧ maps_to (DEPENDENT_RUNTIMES_TO_BUILD T) m p) ∧
  p ∉ excluded_on T platform_name.
Proof.
  unfold _compute_runtimes_to_build.
  rewrite elem_of_exclude_platform_projects, elem_of_foldl_update_from.
  by setoid_rewrite elem_of_iter.
Qed.

(** ** The dependency closure *)

Lemma elem_of_add_dependencies_pass order T s x :
  x ∈ add_dependencies_pass order T s ↔ x ∈ s ∨ ∃ p, p ∈ s ∧ depends_on T p x.
Proof.
  unfold add_dependencies_pass. rewrite elem_of_foldl_update_from.
  by setoid_rewrite elem_of_iter.
Qed.

Lemma add_dependencies_pass_subseteq order T s : s ⊆ add_dependencies_pass order T s.
Proof. intros x Hx. apply elem_of_add_dependencies_pass. auto. Qed.

Lemma depends_on_range T p d : depends_on T p d → d ∈ dependency_range T.
Proof.
  intros (names & Hp & Hd). unfold dependency_range.
  apply elem_of_union_list. exists names. split; [|done].
  apply list_elem_of_fmap. exists (p, names). split; [done|].
  by apply elem_of_map_to_list.
Qed.

Lemma add_dependencies_pass_bounded order T s u :
  s ⊆ u ∪ dependency_range T → add_dependencies_pass order T s ⊆ u ∪ dependency_range T.
Proof.
  intros Hs x [Hx|(p & _ & Hdep)]%elem_of_add_dependencies_pass; [auto|].
  apply elem_of_union_r. by eapply depends_on_range.
Qed.

(** A pass that does not change the size adds nothing. *)
Lemma add_dependencies_pass_stable order T s :
  size s = size (add_dependencies_pass order T s) →
  add_dependencies_pass order T s = s ∧ closed T s.
Proof.
  intros Hsize.
  assert (s = add_dependencies_pass order T s) as Heq.
  { apply set_subseteq_size_eq; [apply add_dependencies_pass_subseteq | lia]. }
  split; [done|]. intros p d Hp Hd. rewrite Heq.
  apply elem_of_add_dependencies_pass. eauto.
Qed.

(** The fuel is enough: the loop leaves at the first pass that adds nothing,
    and every other pass adds a name of the bounded set [u ∪ range]. *)
Lemma add_dependencies_loop_fuel order T u fuel current_count s :
  s ⊆ u ∪ dependency_range T →
  current_count = size s ∨ size (u ∪ dependency_range T) - size s < fuel →
  ∃ r, add_dependencies_loop order T fuel current_count s = Ok r.
Proof.
  revert current_count s. induction fuel as [|fuel IH]; intros c s Hs Hfuel; simpl.
  - case_bool_decide as Hc; [|by eauto]. destruct Hfuel; [done|lia].
  - case_bool_decide as Hc; [|by eauto].
    apply IH; [by apply add_dependencies_pass_bounded|].
    destruct (decide (size s = size (add_dependencies_pass order T s))); [by left|right].
    pose proof (subseteq_size _ _ (add_dependencies_pass_subseteq order T s)).
    pose proof (subseteq_size _ _ (add_dependencies_pass_bounded order T s u Hs)).
    destruct Hfuel; [done|lia].
Qed.

(** What the loop returns: a closed set that holds the start set and only
    names reachable from it along dependencies. *)
Lemma add_dependencies_loop_spec order T fuel current_count s r :
  (current_count = size s → closed T s) →
  add_dependencies_loop order T fuel current_count s = Ok r →
  closed T r ∧ s ⊆ r ∧ ∀ x, x ∈ r → ∃ p, p ∈ s ∧ rtc (depends_on T) p x.
Proof.
  revert current_count s. induction fuel as [|fuel IH]; intros c s Hc; simpl.
  - case_bool_decide as Hne; [done|]. intros [= <-].
    split; [apply Hc; by destruct (decide (c = size s))|].
    split; [done|]. intros x Hx. by exists x.
  - case_bool_decide as Hne.
    + intros Hloop. apply IH in Hloop as (Hclosed & Hsub & Hreach).
      * split; [done|]. split.
        { etrans; [apply add_dependencies_pass_subseteq | done]. }
        intros x Hx. destruct (Hreach x Hx) as (p & Hp & Hpx).
        apply elem_of_add_dependencies_pass in Hp as [Hp|(q & Hq & Hqp)].
        -- by exists p.
        -- exists q. split; [done|]. by eapply rtc_l.
      * intros Hsize. apply add_dependencies_pass_stable in Hsize as [Heq Hcl].
        by rewrite Heq.
    + intros [= <-].
      split; [apply Hc; by destruct (decide (c = size s))|].
      split; [done|]. intros x Hx. by exists x.
Qed.

Lemma closed_rtc T s p x : closed T s → p ∈ s → rtc (depends_on T) p x → x ∈ s.
Proof. intros Hclosed Hp Hrtc. induction Hrtc; eauto. Qed.

(** [_add_dependencies] returns, and returns the names reachable from
    [projects] together with the direct dependencies of [runtimes]. *)
Lemma add_dependencies_spec order T projects runtimes :
  ∃ r, _add_dependencies order T projects runtimes = Ok r ∧
    ∀ x, x ∈ r ↔
      (∃ p, p ∈ projects ∧ rtc (depends_on T) p x) ∨
      (∃ q, q ∈ runtimes ∧ depends_on T q x).
Proof.
  unfold _add_dependencies.
  destruct (add_dependencies_loop_fuel order T projects
              (add_dependencies_fuel T projects) 0 projects) as [c Hloop].
  { apply union_subseteq_l. }
  { right. unfold add_dependencies_fuel. lia. }
  rewrite Hloop. simpl. eexists; split; [done|].
  apply add_dependencies_loop_spec in Hloop as (Hclosed & Hsub & Hreach).
  - intros x. rewrite elem_of_foldl_update_from. setoid_rewrite elem_of_iter.
    split; intros [Hx|Hx]; auto.
    left. destruct Hx as (p & Hp & Hpx). eapply closed_rtc; eauto.
  - intros Hsize p d Hp. symmetry in Hsize. apply size_empty_inv in Hsize.
    apply leibniz_equiv in Hsize. subst. by apply elem_of_empty in Hp.
Qed.

(** ** The modified projects of a list of files *)

Lemma get_modified_projects_loop_spec T files acc m :
  get_modified_projects_loop T files acc = Ok m ↔
  ∃ pss, Forall2 (λ f ps, _get_modified_projects_for_file T f = Ok ps) files pss ∧
         m = acc ∪ ⋃ pss.
Proof.
  revert acc. induction files as [|f files IH]; intros acc; simpl.
  - split.
    + intros [= <-]. exists []. split; [constructor|]. simpl. set_solver.
    + intros (pss & Hall & ->). apply Forall2_nil_inv_l in Hall as ->.
      f_equal. simpl. set_solver.
  - destruct (_get_modified_projects_for_file T f) as [ps|e] eqn:Hf; simpl.
    + rewrite IH. split.
      * intros (pss & Hall & ->). exists (ps :: pss). split; [by constructor|].
        simpl. set_solver.
      * intros (pss & Hall & ->).
        apply Forall2_cons_inv_l in Hall as (ps' & pss' & Hps & Hall & ->).
        exists pss'. split; [done|]. simpl. rewrite Hf in Hps. set_solver.
    + split; [done|]. intros (pss & Hall & _).
      apply Forall2_cons_inv_l in Hall as (ps' & pss' & Hps & _). congruence.
Qed.

Lemma get_modified_projects_spec T files m :
  get_modified_projects T files = Ok m ↔
  ∃ pss, Forall2 (λ f ps, _get_modified_projects_for_file T f = Ok ps) files pss ∧
         m = ⋃ pss.
Proof.
  unfold get_modified_projects. rewrite get_modified_projects_loop_spec.
  split; intros (pss & Hall & ->); exists pss; (split; [done|set_solver]).
Qed.

(** One more file: the run still returns when the file resolves, and with
    at least the projects of the shorter list. *)
Lemma get_modified_projects_insert T l1 f l2 m ps :
  get_modified_projects T (l1 ++ l2) = Ok m →
  _get_modified_projects_for_file T f = Ok ps →
  ∃ m', get_modified_projects T (l1 ++ f :: l2) = Ok m' ∧ m ⊆ m'.
Proof.
  intros (pss & Hall & ->)%get_modified_projects_spec Hf.
  apply Forall2_app_inv_l in Hall as (pss1 & pss2 & H1 & H2 & ->).
  exists (⋃ (pss1 ++ ps :: pss2)%list). split.
  - apply get_modified_projects_spec. exists (pss1 ++ ps :: pss2)%list.
    split; [|done]. apply Forall2_app; [done|by constructor].
  - rewrite !union_list_app. simpl. set_solver.
Qed.

(** ** The selection *)

Lemma compute_selection_Ok order T files platform_name m :
  get_modified_projects T files = Ok m →
  ∃ sel, compute_selection order T files platform_name = Ok sel ∧
         selection_spec T platform_name m sel.
Proof.
  intros Hm. unfold compute_selection. rewrite Hm. simpl.
  match goal with
  | |- context [_add_dependencies order T ?pts ?rtb] =>
      destruct (add_dependencies_spec order T pts rtb) as (build & -> & Hbuild)
  end.
  simpl. eexists; split; [done|]. split; simpl; intros p.
  - apply elem_of_compute_projects_to_test.
  - apply elem_of_compute_runtimes_to_test.
  - apply elem_of_compute_runtimes_to_test_needs_reconfig.
  - apply elem_of_compute_runtimes_to_build.
  - by rewrite elem_of_discard_all, Hbuild.
Qed.

Lemma compute_selection_Raise order T files platform_name e :
  get_modified_projects T files = Raise e →
  compute_selection order T files platform_name = Raise e.
Proof. intros Hm. unfold compute_selection. by rewrite Hm. Qed.

Lemma compute_selection_inv order T files platform_name sel :
  compute_selection order T files platform_name = Ok sel →
  ∃ m, get_modified_projects T files = Ok m ∧ selection_spec T platform_name m sel.
Proof.
  intros Hsel. destruct (get_modified_projects T files) as [m|e] eqn:Hm.
  - exists m. split; [done|].
    destruct (compute_selection_Ok order T files platform_name m Hm) as (sel' & Hsel' & ?).
    congruence.
  - rewrite (compute_selection_Raise _ _ _ _ e Hm) in Hsel. done.
Qed.

Lemma selection_spec_unique T platform_name m sel1 sel2 :
  selection_spec T platform_name m sel1 →
  selection_spec T platform_name m sel2 → sel1 = sel2.
Proof.
  intros [A1 B1 C1 D1 E1] [A2 B2 C2 D2 E2].
  destruct sel1 as [a1 b1 c1 d1 e1], sel2 as [a2 b2 c2 d2 e2]; simpl in *.
  assert (a1 = a2) as -> by (apply set_eq; intros p; by rewrite A1, A2).
  assert (b1 = b2) as -> by (apply set_eq; intros p; by rewrite B1, B2).
  assert (c1 = c2) as -> by (apply set_eq; intros p; by rewrite C1, C2).
  assert (d1 = d2) as -> by (apply set_eq; intros p; by rewrite D1, D2).
  assert (e1 = e2) as -> by (apply set_eq; intros p; by rewrite E1, E2).
  done.
Qed.

(** The sets do not depend on the order sets are iterated in. *)
Lemma compute_selection_order (o1 o2 : IterOrder) T files platform_name :
  compute_selection o1 T files platform_name = compute_selection o2 T files platform_name.
Proof.
  destruct (get_modified_projects T files) as [m|e] eqn:Hm.
  - destruct (compute_selection_Ok o1 T files platform_name m Hm) as (s1 & -> & Hs1).
    destruct (compute_selection_Ok o2 T files platform_name m Hm) as (s2 & -> & Hs2).
    f_equal. by eapply selection_spec_unique.
  - by rewrite !(compute_selection_Raise _ _ _ _ e Hm).
Qed.

Lemma check_targets_of_perm (o1 o2 : IterOrder) T s :
  check_targets_of o1 T s ≡ₚ check_targets_of o2 T s.
Proof. unfold check_targets_of. by rewrite (iter_orders_perm o1 o2 s). Qed.

Lemma render_order (o1 o2 : IterOrder) T sel : render o1 T sel = render o2 T sel.
Proof.
  unfold render.
  rewrite (sorted_perm _ _ (iter_orders_perm o1 o2 (sel_projects_to_build sel))).
  rewrite (sorted_perm _ _ (iter_orders_perm o1 o2 (sel_runtimes_to_build sel))).
  rewrite (sorted_perm _ _ (check_targets_of_perm o1 o2 T (sel_projects_to_test sel))).
  rewrite (sorted_perm _ _ (check_targets_of_perm o1 o2 T (sel_runtimes_to_test sel))).
  by rewrite (sorted_perm _ _
    (check_targets_of_perm o1 o2 T (sel_runtimes_to_test_reconfig sel))).
Qed.

Lemma get_env_variables_Ok order T files platform_name sel :
  compute_selection order T files platform_name = Ok sel →
  get_env_variables order T files platform_name = Ok (render order T sel).
Proof. intros Hsel. unfold get_env_variables. by rewrite Hsel. Qed.

(** * The claims of the specification *)


(** ** Rendering of the check targets *)

Lemma check_targets_in_target_order order T members :
  in_target_order T members (join " " (sorted (check_targets_of order T members))).
Proof.
  eexists. split; [done|]. split; [apply sorted_Sorted|].
  rewrite sorted_Permutation. unfold check_targets_of. by rewrite (iter_perm order).
Qed.

(** C1, as the code has it: for every selection, each of the three
    check-target strings is made of the check targets of the members of its
    test set that have an entry, members without one skipped, joined by
    single spaces, in ascending order of the target names. *)
Theorem check_targets_sorted_by_target order T sel :
  in_target_order T (sel_projects_to_test sel)
    (project_check_targets (render order T sel)) ∧
  in_target_order T (sel_runtimes_to_test sel)
    (runtimes_check_targets (render order T sel)) ∧
  in_target_order T (sel_runtimes_to_test_reconfig sel)
    (runtimes_check_targets_needs_reconfig (render order T sel)).
Proof. repeat split; apply check_targets_in_target_order. Qed.

(** C1 as stated fails: a change under [clang/lib/CIR] selects [CIR] and
    [clang]; [CIR] comes before [clang], but [check-clang] is put before
    [check-clang-cir]. *)
Lemma check_targets_not_in_project_order :
  ∃ sel,
    compute_selection elements_order llvm_tables ["clang/lib/CIR/CMakeLists.txt"] "Linux"
      = Ok sel ∧
    project_check_targets (render elements_order llvm_tables sel)
      = "check-clang check-clang-cir check-clang-tools check-lldb" ∧
    ¬ in_project_order llvm_tables (sel_projects_to_test sel)
        (project_check_targets (render elements_order llvm_tables sel)).
Proof.
  eexists. split; [vm_compute; reflexivity|]. split; [vm_compute; reflexivity|].
  unfold in_project_order. vm_compute. discriminate.
Qed.

(** ** Determinism *)

(** C10: the six strings of the returned mapping, or the exception raised, do
    not depend on the order in which the interpreter iterates its sets: two
    runs on the same files and platform give the same result. *)
Theorem get_env_variables_deterministic (run1 run2 : IterOrder) T files platform_name :
  get_env_variables run1 T files platform_name =
  get_env_variables run2 T files platform_name.
Proof.
  unfold get_env_variables.
  rewrite (compute_selection_order run1 run2).
  destruct (compute_selection run2 T files platform_name) as [sel|e]; simpl; [|done].
  by rewrite (render_order run1 run2).
Qed.

(** ** The projects to test *)

(** C7: a project is to be tested exactly when some modified project that is
    not a runtime is that project and has a check target, or has it among its
    dependents (on Windows, among its dependents less
    [EXCLUDE_DEPENDENTS_WINDOWS]), and the project is not in the exclusion set
    of the platform. *)
Theorem projects_to_test_spec order T modified platform_name p :
  p ∈ _compute_projects_to_test order T modified platform_name ↔
  (∃ m, m ∈ modified ∧ (m ∉ RUNTIMES T) ∧
     ((p = m ∧ is_Some (PROJECT_CHECK_TARGETS T !! m)) ∨
      ∃ dependents, DEPENDENTS_TO_TEST T !! m = Some dependents ∧
        p ∈ (if bool_decide (platform_name = "Windows")
             then dependents ∖ EXCLUDE_DEPENDENTS_WINDOWS T
             else dependents))) ∧
  p ∉ default ∅ (exclusions T !! platform_name).
Proof.
  rewrite elem_of_compute_projects_to_test. unfold adds_to_test, maps_to, excluded_on.
  case_bool_decide as Hwin.
  - setoid_rewrite elem_of_difference. naive_solver.
  - naive_solver.
Qed.

(** ** Path resolution *)

(** C5: when some entry of the meta-project table matches the path and names
    a project of the skip set, the path resolves to the empty set, whatever
    its first segment and whatever else matches. *)
Theorem skip_project_absorbs T modified_file pattern project :
  (pattern, project) ∈ META_PROJECTS T →
  matches pattern (path_parts modified_file) →
  project ∈ SKIP_PROJECTS T →
  _get_modified_projects_for_file T modified_file = Ok ∅.
Proof.
  intros Hin Hm Hskip. apply meta_projects_loop_skip. by exists pattern, project.
Qed.

Lemma skip_project_absorbs_witness :
  _get_modified_projects_for_file llvm_tables "llvm/docs/CIBestPractices.rst" = Ok ∅.
Proof.
  apply (skip_project_absorbs llvm_tables "llvm/docs/CIBestPractices.rst"
           ["*"; "docs"] "docs").
  - compute_done.
  - apply _path_matches_spec. vm_compute. reflexivity.
  - compute_done.
Defined.

(** C6: a path with at least one segment that matches no entry naming a
    project to skip resolves to its first segment together with the projects
    of all the entries that match it; the matcher of the code decides the
    match of the specification. *)
Theorem resolve_is_first_segment_and_meta_matches T modified_file first rest :
  path_parts modified_file = first :: rest →
  ¬ skip_match T (META_PROJECTS T) (first :: rest) →
  (∃ projects,
     _get_modified_projects_for_file T modified_file = Ok projects ∧
     ∀ p, p ∈ projects ↔
       p = first ∨
       ∃ pattern, (pattern, p) ∈ META_PROJECTS T ∧ matches pattern (first :: rest)) ∧
  (∀ pattern,
     _path_matches pattern (first :: rest) = true ↔ matches pattern (first :: rest)).
Proof.
  intros Hparts Hno. split; [|intros; apply _path_matches_spec].
  unfold _get_modified_projects_for_file. rewrite Hparts.
  destruct (meta_projects_loop_segments T first rest (META_PROJECTS T) ∅ Hno)
    as (projects & -> & Hspec).
  exists projects. split; [done|]. intros p. rewrite Hspec, elem_of_empty. tauto.
Qed.

Lemma no_skip_matchb_spec T path :
  no_skip_matchb T path = true → ¬ skip_match T (META_PROJECTS T) path.
Proof.
  unfold no_skip_matchb. rewrite forallb_forall.
  intros Hall (pat & proj & Hin & Hm & Hs).
  apply list_elem_of_In, Hall in Hin. simpl in Hin.
  apply _path_matches_spec in Hm. rewrite Hm in Hin. simpl in Hin.
  by rewrite bool_decide_true in Hin.
Qed.

Lemma resolve_is_first_segment_and_meta_matches_witness :
  (∃ projects,
     _get_modified_projects_for_file llvm_tables "clang/lib/CIR/CMakeLists.txt"
       = Ok projects ∧
     ∀ p, p ∈ projects ↔
       p = "clang" ∨
       ∃ pattern, (pattern, p) ∈ META_PROJECTS llvm_tables ∧
                  matches pattern ["clang"; "lib"; "CIR"; "CMakeLists.txt"]) ∧
  (∀ pattern,
     _path_matches pattern ["clang"; "lib"; "CIR"; "CMakeLists.txt"] = true ↔
     matches pattern ["clang"; "lib"; "CIR"; "CMakeLists.txt"]).
Proof.
  apply (resolve_is_first_segment_and_meta_matches llvm_tables
           "clang/lib/CIR/CMakeLists.txt" "clang" ["lib"; "CIR"; "CMakeLists.txt"]).
  - vm_compute. reflexivity.
  - apply no_skip_matchb_spec. vm_compute. reflexivity.
Defined.

(** C4, where the code departs from it: a path without segments, such as the
    empty string, makes [path_parts[0]] raise [IndexError], unless an entry
    with the empty pattern names a project to skip. *)
Theorem resolve_without_segments_raises T modified_file :
  path_parts modified_file = [] →
  ¬ skip_match T (META_PROJECTS T) [] →
  _get_modified_projects_for_file T modified_file = Raise IndexError.
Proof.
  intros Hparts Hno. unfold _get_modified_projects_for_file. rewrite Hparts.
  by apply meta_projects_loop_no_segment.
Qed.

Lemma resolve_without_segments_raises_witness :
  _get_modified_projects_for_file llvm_tables "" = Raise IndexError.
Proof.
  apply (resolve_without_segments_raises llvm_tables "").
  - vm_compute. reflexivity.
  - apply no_skip_matchb_spec. vm_compute. reflexivity.
Defined.

Lemma meta_projects_loop_Raise T path items acc e :
  meta_projects_loop T path items acc = Raise e → e = IndexError.
Proof.
  revert acc. induction items as [|[pat proj] items IH]; intros acc; simpl.
  - destruct path; congruence.
  - destruct (_path_matches pat path); [case_bool_decide; [done|]|]; apply IH.
Qed.

Lemma get_modified_projects_Raise T files e :
  get_modified_projects T files = Raise e → e = IndexError.
Proof.
  unfold get_modified_projects. generalize (∅ : gset string).
  induction files as [|f files IH]; intros acc; simpl; [done|].
  destruct (_get_modified_projects_for_file T f) as [ps|e'] eqn:Hf; simpl.
  - apply IH.
  - intros [= <-]. by eapply meta_projects_loop_Raise.
Qed.

(** The loop of [_add_dependencies] always ends within its fuel: the only
    exception of a run is the [IndexError] of a path without segments. *)
Lemma get_env_variables_Raise order T files platform_name e :
  get_env_variables order T files platform_name = Raise e → e = IndexError.
Proof.
  unfold get_env_variables. intros Hrun.
  destruct (get_modified_projects T files) as [m|e'] eqn:Hm.
  - destruct (compute_selection_Ok order T files platform_name m Hm) as (sel & Hsel & _).
    by rewrite Hsel in Hrun.
  - rewrite (compute_selection_Raise order T _ _ e' Hm) in Hrun.
    simpl in Hrun. injection Hrun as <-. by eapply get_modified_projects_Raise.
Qed.

(** A blank line on the standard input stops the whole run. *)
Example blank_line_stops_the_run :
  get_env_variables elements_order llvm_tables ["llvm/CMakeLists.txt"; ""] "Linux"
    = Raise IndexError.
Proof. vm_compute. reflexivity. Qed.

(** With at least one segment in every path, and more generally whenever
    every file resolves, the run returns. *)
Lemma get_env_variables_returns order T files platform_name :
  Forall (λ f, ∃ ps, _get_modified_projects_for_file T f = Ok ps) files →
  ∃ env, get_env_variables order T files platform_name = Ok env.
Proof.
  intros Hall.
  assert (∃ m, get_modified_projects T files = Ok m) as [m Hm].
  { setoid_rewrite get_modified_projects_spec.
    induction Hall as [|f files [ps Hps] _ (m & pss & Hpss & ->)].
    - exists ∅, []. split; [constructor|done].
    - exists (⋃ (ps :: pss)), (ps :: pss). split; [by constructor|done]. }
  destruct (compute_selection_Ok order T files platform_name m Hm) as (sel & Hsel & _).
  exists (render order T sel). by apply get_env_variables_Ok.
Qed.

(** ** Platform exclusion *)

Lemma exclusions_recognized T :
  exclusions T !! "Linux" = Some (EXCLUDE_LINUX T) ∧
  exclusions T !! "Windows" = Some (EXCLUDE_WINDOWS T) ∧
  exclusions T !! "Darwin" = Some (EXCLUDE_MAC T).
Proof. unfold exclusions. repeat split; by simplify_map_eq. Qed.

Lemma exclusions_unrecognized T platform_name :
  platform_name ∉ ["Linux"; "Windows"; "Darwin"] → exclusions T !! platform_name = None.
Proof.
  rewrite !not_elem_of_cons. intros (? & ? & ? & _).
  unfold exclusions. by simplify_map_eq.
Qed.

(** X22: whatever the tables, on a recognized platform no project of the
    exclusion set is in [runtimes_to_build] or in one of the three test sets;
    one can be in [projects_to_build] only as a direct dependency of a
    project the closure reached or of a runtime to build, since the exclusion
    is applied before the closure and not after it. *)
Theorem excluded_projects_in_outputs order T files platform_name excluded sel :
  exclusions T !! platform_name = Some excluded →
  compute_selection order T files platform_name = Ok sel →
  get_env_variables order T files platform_name = Ok (render order T sel) ∧
  sel_runtimes_to_build sel ## excluded ∧
  sel_projects_to_test sel ## excluded ∧
  sel_runtimes_to_test sel ## excluded ∧
  sel_runtimes_to_test_reconfig sel ## excluded ∧
  ∀ p, p ∈ sel_projects_to_build sel → p ∈ excluded →
    ∃ q, depends_on T q p ∧
      ((∃ r, r ∈ sel_projects_to_test sel ∧ rtc (depends_on T) r q) ∨
       q ∈ sel_runtimes_to_build sel).
Proof.
  intros Hexcl Hsel. split; [by apply get_env_variables_Ok|].
  apply compute_selection_inv in Hsel as (m & _ & [Ht Hr Hrr Hb Hp]).
  assert (excluded_on T platform_name = excluded) as Hon.
  { unfold excluded_on. by rewrite Hexcl. }
  rewrite Hon in *.
  split; [intros p Hin%Hb; tauto|]. split; [intros p Hin%Ht; tauto|].
  split; [intros p Hin%Hr; tauto|]. split; [intros p Hin%Hrr; tauto|].
  intros p [[(r & Hr' & Hrp)|(q & Hq & Hqp)] _]%Hp Hex.
  - apply rtc_inv_r in Hrp as [->|(q & Hrq & Hqp)].
    + apply Ht in Hr'. tauto.
    + exists q. split; [done|]. left. by exists r.
  - exists q. auto.
Qed.

Lemma excluded_projects_in_outputs_witness :
  ∃ sel,
    get_env_variables elements_order llvm_tables ["llvm/CMakeLists.txt"] "Darwin"
      = Ok (render elements_order llvm_tables sel) ∧
    sel_runtimes_to_build sel ## EXCLUDE_MAC llvm_tables ∧
    sel_projects_to_test sel ## EXCLUDE_MAC llvm_tables ∧
    sel_runtimes_to_test sel ## EXCLUDE_MAC llvm_tables ∧
    sel_runtimes_to_test_reconfig sel ## EXCLUDE_MAC llvm_tables ∧
    ∀ p, p ∈ sel_projects_to_build sel → p ∈ EXCLUDE_MAC llvm_tables →
      ∃ q, depends_on llvm_tables q p ∧
        ((∃ r, r ∈ sel_projects_to_test sel ∧ rtc (depends_on llvm_tables) r q) ∨
         q ∈ sel_runtimes_to_build sel).
Proof.
  eexists.
  apply (excluded_projects_in_outputs elements_order llvm_tables
           ["llvm/CMakeLists.txt"] "Darwin").
  - vm_compute. reflexivity.
  - vm_compute. reflexivity.
Defined.

(** With tables in which a tested project depends on an excluded one, the
    excluded project is built: [lib] is excluded on Linux and [app] depends
    on it. *)
Example excluded_dependency_is_built :
  ∃ env,
    get_env_variables elements_order excluded_dependency_tables ["app/main.c"] "Linux"
      = Ok env ∧
    exclusions excluded_dependency_tables !! "Linux" = Some {["lib"]} ∧
    projects_to_build env = "app;lib" ∧
    ∃ sel,
      compute_selection elements_order excluded_dependency_tables ["app/main.c"] "Linux"
        = Ok sel ∧
      "lib" ∈ sel_projects_to_build sel.
Proof.
  eexists. split; [vm_compute; reflexivity|].
  split; [vm_compute; reflexivity|]. split; [reflexivity|].
  eexists. split; [vm_compute; reflexivity|]. compute_done.
Qed.

(** ** Closure under dependencies *)

(** C3, as the code has it: every direct dependency of a project that the
    closure reaches from the projects to test is in [projects_to_build],
    unless it is in the build-skip set.  The projects that only the pass
    over the runtimes to build brought in are not expanded. *)
Theorem closure_has_direct_dependencies order T files platform_name sel p d :
  compute_selection order T files platform_name = Ok sel →
  p ∈ sel_projects_to_build sel →
  (∃ q, q ∈ sel_projects_to_test sel ∧ rtc (depends_on T) q p) →
  depends_on T p d →
  d ∉ SKIP_BUILD_PROJECTS T →
  d ∈ sel_projects_to_build sel.
Proof.
  intros (m & _ & [_ _ _ _ Hp])%compute_selection_inv _ (q & Hq & Hqp) Hd Hskip.
  apply Hp. split; [|done]. left. exists q. split; [done|]. by eapply rtc_r.
Qed.

Lemma closure_has_direct_dependencies_witness :
  ∃ sel,
    compute_selection elements_order llvm_tables ["bolt/CMakeLists.txt"] "Linux" = Ok sel ∧
    "llvm" ∈ sel_projects_to_build sel.
Proof.
  eexists. split; [vm_compute; reflexivity|].
  apply (closure_has_direct_dependencies elements_order llvm_tables
           ["bolt/CMakeLists.txt"] "Linux" _ "clang" "llvm").
  - vm_compute. reflexivity.
  - compute_done.
  - exists "bolt". split; [compute_done|].
    apply rtc_once. eexists. split; [vm_compute; reflexivity|compute_done].
  - eexists. split; [vm_compute; reflexivity|compute_done].
  - compute_done.
Defined.

(** C3 as stated fails: a change in [compiler-rt] builds [clang] and [lld],
    the dependencies of the runtime, and not [llvm], on which both depend. *)
Lemma runtime_dependency_not_expanded :
  ∃ sel,
    compute_selection elements_order llvm_tables
      ["compiler-rt/lib/asan/asan_allocator.cpp"] "Linux" = Ok sel ∧
    projects_to_build (render elements_order llvm_tables sel) = "clang;lld" ∧
    "clang" ∈ sel_projects_to_build sel ∧
    depends_on llvm_tables "clang" "llvm" ∧
    ("llvm" ∉ SKIP_BUILD_PROJECTS llvm_tables) ∧
    "llvm" ∉ sel_projects_to_build sel.
Proof.
  eexists. split; [vm_compute; reflexivity|]. split; [vm_compute; reflexivity|].
  split; [compute_done|]. split.
  { eexists. split; [vm_compute; reflexivity|compute_done]. }
  split; compute_done.
Qed.

(** ** Monotonicity *)

(** X23: when a run returns and one more file, which resolves, is put
    anywhere into its list of files, the run on the longer list returns too,
    and every set of the first run is included in the corresponding set of
    the second; the CIR flag does not go from [ON] to [OFF]. *)
Theorem one_more_file_is_monotone (run1 run2 : IterOrder) T before file after
    platform_name sel1 ps :
  compute_selection run1 T (before ++ after) platform_name = Ok sel1 →
  _get_modified_projects_for_file T file = Ok ps →
  ∃ sel2,
    compute_selection run2 T (before ++ file :: after) platform_name = Ok sel2 ∧
    sel_projects_to_build sel1 ⊆ sel_projects_to_build sel2 ∧
    sel_runtimes_to_build sel1 ⊆ sel_runtimes_to_build sel2 ∧
    sel_projects_to_test sel1 ⊆ sel_projects_to_test sel2 ∧
    sel_runtimes_to_test sel1 ⊆ sel_runtimes_to_test sel2 ∧
    sel_runtimes_to_test_reconfig sel1 ⊆ sel_runtimes_to_test_reconfig sel2 ∧
    flag_le (enable_cir (render run1 T sel1)) (enable_cir (render run2 T sel2)).
Proof.
  intros (m1 & Hm1 & [Ht1 Hr1 Hrr1 Hb1 Hp1])%compute_selection_inv Hfile.
  destruct (get_modified_projects_insert T before file after m1 ps Hm1 Hfile)
    as (m2 & Hm2 & Hsub).
  destruct (compute_selection_Ok run2 T _ platform_name m2 Hm2)
    as (sel2 & Hsel2 & [Ht2 Hr2 Hrr2 Hb2 Hp2]).
  exists sel2. split; [done|].
  assert (sel_projects_to_test sel1 ⊆ sel_projects_to_test sel2) as Ht.
  { intros p [(x & Hx & Hadd) Hex]%Ht1. apply Ht2. eauto. }
  assert (sel_runtimes_to_test sel1 ⊆ sel_runtimes_to_test sel2) as Hr.
  { intros p [(x & Hx & Hadd) Hex]%Hr1. apply Hr2. eauto. }
  assert (sel_runtimes_to_test_reconfig sel1 ⊆ sel_runtimes_to_test_reconfig sel2) as Hrr.
  { intros p [(x & Hx & Hadd) Hex]%Hrr1. apply Hrr2. eauto. }
  assert (sel_runtimes_to_build sel1 ⊆ sel_runtimes_to_build sel2) as Hb.
  { intros p [[Hin|(x & Hx & Hadd)] Hex]%Hb1; apply Hb2; split; try done.
    - left. set_solver.
    - right. eauto. }
  assert (sel_projects_to_build sel1 ⊆ sel_projects_to_build sel2) as Hp.
  { intros p [[(q & Hq & Hqp)|(q & Hq & Hqp)] Hskip]%Hp1; apply Hp2; split; try done.
    - left. exists q. auto.
    - right. exists q. auto. }
  repeat (split; [done|]).
  unfold flag_le, render. simpl. repeat case_bool_decide; try done.
  intros _. exfalso. auto.
Qed.

Lemma one_more_file_is_monotone_witness :
  ∃ sel1,
    compute_selection elements_order llvm_tables ["bolt/CMakeLists.txt"] "Linux"
      = Ok sel1 ∧
    ∃ sel2,
      compute_selection reverse_order llvm_tables
        ["bolt/CMakeLists.txt"; "clang/lib/CIR/CMakeLists.txt"] "Linux" = Ok sel2 ∧
      sel_projects_to_build sel1 ⊆ sel_projects_to_build sel2 ∧
      sel_runtimes_to_build sel1 ⊆ sel_runtimes_to_build sel2 ∧
      sel_projects_to_test sel1 ⊆ sel_projects_to_test sel2 ∧
      sel_runtimes_to_test sel1 ⊆ sel_runtimes_to_test sel2 ∧
      sel_runtimes_to_test_reconfig sel1 ⊆ sel_runtimes_to_test_reconfig sel2 ∧
      flag_le (enable_cir (render elements_order llvm_tables sel1))
              (enable_cir (render reverse_order llvm_tables sel2)).
Proof.
  eexists. split; [vm_compute; reflexivity|].
  eapply (one_more_file_is_monotone elements_order reverse_order llvm_tables
            ["bolt/CMakeLists.txt"] "clang/lib/CIR/CMakeLists.txt" [] "Linux").
  - vm_compute. reflexivity.
  - vm_compute. reflexivity.
Defined.

(** ** Unrecognized platforms *)

Lemma meta_projects_loop_without_exclusions T path items acc :
  meta_projects_loop (without_exclusions T) path items acc =
  meta_projects_loop T path items acc.
Proof.
  revert acc. induction items as [|[pat proj] items IH]; intros acc; simpl; [done|].
  by rewrite !IH.
Qed.

Lemma get_modified_projects_without_exclusions T files :
  get_modified_projects (without_exclusions T) files = get_modified_projects T files.
Proof.
  unfold get_modified_projects. generalize (∅ : gset string).
  induction files as [|f files IH]; intros acc; simpl; [done|].
  unfold _get_modified_projects_for_file at 1. simpl.
  rewrite meta_projects_loop_without_exclusions.
  fold (_get_modified_projects_for_file T f).
  destruct (_get_modified_projects_for_file T f); simpl; [apply IH|done].
Qed.

Lemma excluded_on_without_exclusions T platform_name :
  excluded_on (without_exclusions T) platform_name = ∅.
Proof.
  unfold excluded_on, exclusions. simpl.
  destruct (decide (platform_name = "Linux")) as [->|]; [by simplify_map_eq|].
  destruct (decide (platform_name = "Windows")) as [->|]; [by simplify_map_eq|].
  destruct (decide (platform_name = "Darwin")) as [->|]; by simplify_map_eq.
Qed.

Lemma selection_spec_without_exclusions T platform_name m sel :
  platform_name ∉ ["Linux"; "Windows"; "Darwin"] →
  selection_spec (without_exclusions T) platform_name m sel →
  selection_spec T platform_name m sel.
Proof.
  intros Hpf [Ht Hr Hrr Hb Hp].
  assert (excluded_on T platform_name = ∅) as Hon.
  { unfold excluded_on. by rewrite exclusions_unrecognized. }
  assert (platform_name ≠ "Windows") as Hwin.
  { intros ->. apply Hpf. set_solver. }
  rewrite excluded_on_without_exclusions in *.
  split; rewrite ?Hon; try done.
  intros p. rewrite Ht. unfold adds_to_test. simpl.
  split; intros [(x & Hx & Hrt & Hadd) Hex]; (split; [|done]); exists x;
    (split; [done|]); (split; [done|]); destruct Hadd as [?|[? ?]]; auto.
Qed.

(** C9: on a platform that is none of [Linux], [Windows] and [Darwin]
    nothing is excluded: [_exclude_platform_projects] returns its argument,
    the run gives what it gives with the exclusion sets and the Windows
    subset of dependents emptied, and it returns whenever the files resolve. *)
Theorem unrecognized_platform_excludes_nothing order T files platform_name :
  platform_name ∉ ["Linux"; "Windows"; "Darwin"] →
  (∀ projects, _exclude_platform_projects T projects platform_name = projects) ∧
  get_env_variables order T files platform_name =
    get_env_variables order (without_exclusions T) files platform_name ∧
  (∀ m, get_modified_projects T files = Ok m →
        ∃ env, get_env_variables order T files platform_name = Ok env).
Proof.
  intros Hpf. split; [|split].
  - intros projects. unfold _exclude_platform_projects.
    rewrite exclusions_unrecognized by done. simpl. set_solver.
  - unfold get_env_variables.
    destruct (get_modified_projects T files) as [m|e] eqn:Hm.
    + pose proof Hm as Hm'. rewrite <- get_modified_projects_without_exclusions in Hm'.
      destruct (compute_selection_Ok order T files platform_name m Hm)
        as (s1 & -> & Hs1).
      destruct (compute_selection_Ok order _ files platform_name m Hm')
        as (s2 & -> & Hs2).
      apply selection_spec_without_exclusions in Hs2; [|done].
      by rewrite (selection_spec_unique _ _ _ _ _ Hs1 Hs2).
    + rewrite (compute_selection_Raise order T _ _ e Hm).
      rewrite <- get_modified_projects_without_exclusions in Hm.
      by rewrite (compute_selection_Raise order _ _ _ e Hm).
  - intros m Hm.
    destruct (compute_selection_Ok order T files platform_name m Hm) as (sel & Hsel & _).
    exists (render order T sel). by apply get_env_variables_Ok.
Qed.

Lemma unrecognized_platform_excludes_nothing_witness :
  (∀ projects, _exclude_platform_projects llvm_tables projects "FreeBSD" = projects) ∧
  get_env_variables elements_order llvm_tables ["llvm/CMakeLists.txt"] "FreeBSD" =
    get_env_variables elements_order (without_exclusions llvm_tables)
      ["llvm/CMakeLists.txt"] "FreeBSD" ∧
  (∀ m, get_modified_projects llvm_tables ["llvm/CMakeLists.txt"] = Ok m →
        ∃ env, get_env_variables elements_order llvm_tables ["llvm/CMakeLists.txt"]
                 "FreeBSD" = Ok env).
Proof.
  apply (unrecognized_platform_excludes_nothing elements_order llvm_tables
           ["llvm/CMakeLists.txt"] "FreeBSD").
  compute_done.
Defined.

(** ** The expected values of [compute_projects_test.py]

    The tests that do not touch the CIR pseudo-project, run on [llvm_tables]
    with the sets iterated backwards. *)

Example test_llvm_modification_linux :
  get_env_variables reverse_order llvm_tables ["llvm/CMakeLists.txt"] "Linux" =
  expected "bolt;clang;clang-tools-extra;flang;lld;lldb;llvm;mlir;polly"
    "check-bolt check-clang check-clang-tools check-flang check-lld check-lldb check-llvm check-mlir check-polly"
    "libcxx;libcxxabi;libunwind" ""
    "check-cxx check-cxxabi check-unwind" "OFF".
Proof. vm_compute. reflexivity. Qed.

Example test_llvm_modification_windows :
  get_env_variables reverse_order llvm_tables ["llvm/CMakeLists.txt"] "Windows" =
  expected "clang;clang-tools-extra;lld;llvm;mlir;polly"
    "check-clang check-clang-tools check-lld check-llvm check-mlir check-polly"
    "" ""
    "" "OFF".
Proof. vm_compute. reflexivity. Qed.

Example test_llvm_modification_mac :
  get_env_variables reverse_order llvm_tables ["llvm/CMakeLists.txt"] "Darwin" =
  expected "clang;clang-tools-extra;lld;llvm;mlir"
    "check-clang check-clang-tools check-lld check-llvm check-mlir"
    "" ""
    "" "OFF".
Proof. vm_compute. reflexivity. Qed.

Example test_clang_modification_linux :
  get_env_variables reverse_order llvm_tables ["clang/CMakeLists.txt"] "Linux" =
  expected "clang;clang-tools-extra;lld;lldb;llvm"
    "check-clang check-clang-tools check-lldb"
    "compiler-rt;libcxx;libcxxabi;libunwind" "check-compiler-rt"
    "check-cxx check-cxxabi check-unwind" "OFF".
Proof. vm_compute. reflexivity. Qed.

Example test_clang_modification_windows :
  get_env_variables reverse_order llvm_tables ["clang/CMakeLists.txt"] "Windows" =
  expected "clang;clang-tools-extra;lld;llvm"
    "check-clang check-clang-tools"
    "compiler-rt" "check-compiler-rt"
    "" "OFF".
Proof. vm_compute. reflexivity. Qed.

Example test_compiler_rt_modification :
  get_env_variables reverse_order llvm_tables ["compiler-rt/lib/asan/asan_allocator.cpp"] "Linux" =
  expected "clang;lld"
    ""
    "compiler-rt" "check-compiler-rt"
    "" "OFF".
Proof. vm_compute. reflexivity. Qed.

Example test_bolt_modification :
  get_env_variables reverse_order llvm_tables ["bolt/CMakeLists.txt"] "Linux" =
  expected "bolt;clang;lld;llvm"
    "check-bolt"
    "" ""
    "" "OFF".
Proof. vm_compute. reflexivity. Qed.

Example test_lldb_modification :
  get_env_variables reverse_order llvm_tables ["lldb/CMakeLists.txt"] "Linux" =
  expected "clang;lldb;llvm"
    "check-lldb"
    "libcxx;libcxxabi;libunwind" ""
    "" "OFF".
Proof. vm_compute. reflexivity. Qed.

Example test_mlir_modification :
  get_env_variables reverse_order llvm_tables ["mlir/CMakeLists.txt"] "Linux" =
  expected "clang;flang;llvm;mlir"
    "check-flang check-mlir"
    "" ""
    "" "OFF".
Proof. vm_compute. reflexivity. Qed.

Example test_flang_modification :
  get_env_variables reverse_order llvm_tables ["flang/CMakeLists.txt"] "Linux" =
  expected "clang;flang;llvm"
    "check-flang"
    "flang-rt" "check-flang-rt"
    "" "OFF".
Proof. vm_compute. reflexivity. Qed.

Example test_invalid_subproject :
  get_env_variables reverse_order llvm_tables ["llvm-libgcc/CMakeLists.txt"] "Linux" =
  expected ""
    ""
    "" ""
    "" "OFF".
Proof. vm_compute. reflexivity. Qed.

Example test_top_level_file :
  get_env_variables reverse_order llvm_tables ["README.md"] "Linux" =
  expected ""
    ""
    "" ""
    "" "OFF".
Proof. vm_compute. reflexivity. Qed.

Example test_exclude_libcxx_in_projects :
  get_env_variables reverse_order llvm_tables ["libcxx/CMakeLists.txt"] "Linux" =
  expected ""
    ""
    "" ""
    "" "OFF".
Proof. vm_compute. reflexivity. Qed.

Example test_include_libc_in_runtimes :
  get_env_variables reverse_order llvm_tables ["libc/CMakeLists.txt"] "Linux" =
  expected "clang;lld"
    ""
    "libc" "check-libc"
    "" "OFF".
Proof. vm_compute. reflexivity. Qed.

Example test_exclude_docs :
  get_env_variables reverse_order llvm_tables ["llvm/docs/CIBestPractices.rst"] "Linux" =
  expected ""
    ""
    "" ""
    "" "OFF".
Proof. vm_compute. reflexivity. Qed.

Example test_exclude_gn :
  get_env_variables reverse_order llvm_tables ["llvm/utils/gn/build/BUILD.gn"] "Linux" =
  expected ""
    ""
    "" ""
    "" "OFF".
Proof. vm_compute. reflexivity. Qed.

Example test_clang_tools_extra_modification :
  get_env_variables reverse_order llvm_tables ["clang-tools-extra/CMakeLists.txt"] "Linux" =
  expected "clang;clang-tools-extra;lld;llvm"
    "check-clang-tools"
    "libc" "check-libc"
    "" "OFF".
Proof. vm_compute. reflexivity. Qed.

Example test_other_github_workflow :
  get_env_variables reverse_order llvm_tables [".github/workflows/docs.yml"] "Linux" =
  expected ""
    ""
    "" ""
    "" "OFF".
Proof. vm_compute. reflexivity. Qed.

Example test_lit_modification :
  get_env_variables reverse_order llvm_tables ["llvm/utils/lit/CMakeLists.txt"] "Linux" =
  expected "bolt;clang;clang-tools-extra;flang;lld;lldb;llvm;mlir;polly"
    "check-bolt check-clang check-clang-tools check-flang check-lit check-lld check-lldb check-llvm check-mlir check-polly"
    "libcxx;libcxxabi;libunwind" ""
    "check-cxx check-cxxabi check-unwind" "OFF".
Proof. vm_compute. reflexivity. Qed.

(** * Further properties of the code *)

(** ** The outcomes of resolving one path *)

Lemma no_skip_matchb_false T path :
  no_skip_matchb T path = false → skip_match T (META_PROJECTS T) path.
Proof.
  unfold no_skip_matchb, skip_match. generalize (META_PROJECTS T).
  intros items. induction items as [|[pat proj] items IH]; simpl; [done|].
  destruct (_path_matches pat path) eqn:Hpat; simpl.
  - case_bool_decide as Hskip; simpl.
    + intros _. exists pat, proj. rewrite elem_of_cons, <- _path_matches_spec. auto.
    + intros (p & q & Hin & ?)%IH. exists p, q. rewrite elem_of_cons. auto.
  - intros (p & q & Hin & ?)%IH. exists p, q. rewrite elem_of_cons. auto.
Qed.

Lemma skip_match_dec T path :
  skip_match T (META_PROJECTS T) path ∨ ¬ skip_match T (META_PROJECTS T) path.
Proof.
  destruct (no_skip_matchb T path) eqn:Hb.
  - right. by apply no_skip_matchb_spec.
  - left. by apply no_skip_matchb_false.
Qed.

(** The three ways [_get_modified_projects_for_file] can end. *)
Lemma resolve_cases T f :
  (skip_match T (META_PROJECTS T) (path_parts f) ∧
   _get_modified_projects_for_file T f = Ok ∅) ∨
  (¬ skip_match T (META_PROJECTS T) (path_parts f) ∧ path_parts f = [] ∧
   _get_modified_projects_for_file T f = Raise IndexError) ∨
  (¬ skip_match T (META_PROJECTS T) (path_parts f) ∧
   ∃ first rest ps,
     path_parts f = first :: rest ∧
     _get_modified_projects_for_file T f = Ok ps ∧ first ∈ ps).
Proof.
  destruct (skip_match_dec T (path_parts f)) as [Hskip|Hno].
  - left. split; [done|]. by apply meta_projects_loop_skip.
  - right. unfold _get_modified_projects_for_file.
    destruct (path_parts f) as [|first rest] eqn:Hparts.
    + left. split; [done|]. split; [done|]. by apply meta_projects_loop_no_segment.
    + right. split; [done|].
      destruct (meta_projects_loop_segments T first rest (META_PROJECTS T) ∅ Hno)
        as (ps & Hps & Hspec).
      exists first, rest, ps. split; [done|]. split; [done|]. apply Hspec. auto.
Qed.

(** X9: a path resolves to the empty set exactly when an entry of the
    meta-project table matches it and names a project to skip; a path that
    resolves otherwise has its first segment in the result. *)
Theorem resolves_to_nothing_iff_skipped T modified_file :
  (_get_modified_projects_for_file T modified_file = Ok ∅ ↔
   skip_match T (META_PROJECTS T) (path_parts modified_file)) ∧
  (∀ projects,
     _get_modified_projects_for_file T modified_file = Ok projects →
     projects ≠ ∅ →
     ∃ first rest, path_parts modified_file = first :: rest ∧ first ∈ projects).
Proof.
  split; [split|].
  - intros Hres.
    destruct (resolve_cases T modified_file)
      as [[? _]|[(_ & _ & Hr)|(_ & first & rest & ps & _ & Hps & Hin)]];
      [done|congruence|].
    rewrite Hres in Hps. injection Hps as <-. by apply elem_of_empty in Hin.
  - apply meta_projects_loop_skip.
  - intros projects Hres Hne.
    destruct (resolve_cases T modified_file)
      as [[_ Hr]|[(_ & _ & Hr)|(_ & first & rest & ps & Hparts & Hps & Hin)]];
      [congruence|congruence|].
    exists first, rest. split; [done|]. congruence.
Qed.

Lemma resolve_Raise_iff T f e :
  _get_modified_projects_for_file T f = Raise e ↔
  e = IndexError ∧ path_parts f = [] ∧ ¬ skip_match T (META_PROJECTS T) [].
Proof.
  split.
  - intros Hres.
    destruct (resolve_cases T f)
      as [[_ Hr]|[(Hno & Hparts & Hr)|(_ & first & rest & ps & _ & Hps & _)]];
      [congruence| |congruence].
    rewrite Hparts in Hno. split; [congruence|done].
  - intros (-> & Hparts & Hno). unfold _get_modified_projects_for_file.
    rewrite Hparts. by apply meta_projects_loop_no_segment.
Qed.

(** ** The modified projects of a list of files *)

Lemma elem_of_get_modified_projects T files m :
  get_modified_projects T files = Ok m →
  ∀ p, p ∈ m ↔
    ∃ f ps, f ∈ files ∧ _get_modified_projects_for_file T f = Ok ps ∧ p ∈ ps.
Proof.
  intros (pss & Hall & ->)%get_modified_projects_spec p.
  rewrite elem_of_union_list. split.
  - intros (ps & Hps & Hp).
    apply list_elem_of_lookup in Hps as [i Hi].
    destruct (Forall2_lookup_r _ _ _ _ _ Hall Hi) as (f & Hf & Hres).
    exists f, ps. split; [by eapply list_elem_of_lookup_2|done].
  - intros (f & ps & Hf & Hres & Hp).
    apply list_elem_of_lookup in Hf as [i Hi].
    destruct (Forall2_lookup_l _ _ _ _ _ Hall Hi) as (ps' & Hps' & Hres').
    exists ps'. split; [by eapply list_elem_of_lookup_2|congruence].
Qed.

Lemma get_modified_projects_Ok_iff T files :
  (∃ m, get_modified_projects T files = Ok m) ↔
  ∀ f, f ∈ files → ∃ ps, _get_modified_projects_for_file T f = Ok ps.
Proof.
  setoid_rewrite get_modified_projects_spec. split.
  - intros (m & pss & Hall & _) f Hf.
    apply list_elem_of_lookup in Hf as [i Hi].
    destruct (Forall2_lookup_l _ _ _ _ _ Hall Hi) as (ps & _ & Hres). eauto.
  - induction files as [|f files IH]; intros Hall.
    + exists ∅, []. split; [constructor|done].
    + destruct IH as (m & pss & Hpss & _).
      { intros g Hg. apply Hall. by right. }
      destruct (Hall f) as [ps Hps]; [by left|].
      exists (⋃ (ps :: pss)), (ps :: pss). split; [by constructor|done].
Qed.

(** X10: [get_modified_projects] gives the union of what the files resolve
    to: a project is in the result exactly when one of the files resolves to
    a set that has it. *)
Theorem get_modified_projects_is_union T modified_files modified_projects :
  get_modified_projects T modified_files = Ok modified_projects →
  ∀ p, p ∈ modified_projects ↔
    ∃ f ps, f ∈ modified_files ∧
            _get_modified_projects_for_file T f = Ok ps ∧ p ∈ ps.
Proof. apply elem_of_get_modified_projects. Qed.

Lemma get_modified_projects_is_union_witness :
  ∃ m,
    get_modified_projects llvm_tables
      ["clang/lib/CIR/x.cpp"; "llvm/docs/index.rst"; "bolt/x.cpp"] = Ok m ∧
    ∀ p, p ∈ m ↔
      ∃ f ps, f ∈ ["clang/lib/CIR/x.cpp"; "llvm/docs/index.rst"; "bolt/x.cpp"] ∧
              _get_modified_projects_for_file llvm_tables f = Ok ps ∧ p ∈ ps.
Proof.
  eexists. split; [vm_compute; reflexivity|].
  apply (get_modified_projects_is_union llvm_tables
           ["clang/lib/CIR/x.cpp"; "llvm/docs/index.rst"; "bolt/x.cpp"]).
  vm_compute. reflexivity.
Defined.

(** X11: a run raises, and then [IndexError], exactly when one of the files
    has a path without segments and no entry with the empty pattern names a
    project to skip; in every other case it returns a mapping. *)
Theorem run_raises_iff order T files platform_name :
  (get_env_variables order T files platform_name = Raise IndexError ↔
   ∃ f, f ∈ files ∧ path_parts f = [] ∧ ¬ skip_match T (META_PROJECTS T) []) ∧
  ((∃ env, get_env_variables order T files platform_name = Ok env) ↔
   ∀ f, f ∈ files → path_parts f = [] → skip_match T (META_PROJECTS T) []).
Proof.
  assert ((∃ env, get_env_variables order T files platform_name = Ok env) ↔
          ∀ f, f ∈ files → path_parts f = [] → skip_match T (META_PROJECTS T) [])
    as Hok.
  { split.
    - intros [env Henv] f Hf Hparts.
      destruct (skip_match_dec T []) as [?|Hno]; [done|exfalso].
      unfold get_env_variables in Henv.
      destruct (compute_selection order T files platform_name) as [sel|] eqn:Hsel;
        [|done].
      apply compute_selection_inv in Hsel as (m & Hm & _).
      assert (∃ m, get_modified_projects T files = Ok m) as Hex by eauto.
      rewrite get_modified_projects_Ok_iff in Hex.
      destruct (Hex f Hf) as [ps Hps].
      assert (_get_modified_projects_for_file T f = Raise IndexError) as Hr.
      { by apply resolve_Raise_iff. }
      congruence.
    - intros Hall.
      assert (∃ m, get_modified_projects T files = Ok m) as [m Hm].
      { apply get_modified_projects_Ok_iff. intros f Hf.
        destruct (_get_modified_projects_for_file T f) as [ps|e] eqn:Hres; [eauto|].
        apply resolve_Raise_iff in Hres as (_ & Hparts & Hno).
        destruct Hno. by eapply Hall. }
      destruct (compute_selection_Ok order T files platform_name m Hm)
        as (sel & Hsel & _).
      exists (render order T sel). by apply get_env_variables_Ok. }
  split; [|done]. split.
  - intros Hr.
    destruct (get_modified_projects T files) as [m|e] eqn:Hm.
    + destruct (compute_selection_Ok order T files platform_name m Hm)
        as (sel & Hsel & _).
      rewrite (get_env_variables_Ok _ _ _ _ _ Hsel) in Hr. done.
    + clear Hok Hr. unfold get_modified_projects in Hm. revert Hm.
      generalize (∅ : gset string).
      induction files as [|f files IH]; intros acc; simpl; [done|].
      destruct (_get_modified_projects_for_file T f) as [ps|e'] eqn:Hres; simpl.
      * intros (g & Hg & ?)%IH. exists g. split; [by right|done].
      * intros _. apply resolve_Raise_iff in Hres as (_ & Hparts & Hno).
        exists f. split; [by left|done].
  - intros (f & Hf & Hparts & Hno).
    destruct (get_env_variables order T files platform_name) as [env|e] eqn:Hrun.
    + exfalso. apply Hno. destruct Hok as [Hok _]. by eapply Hok; eauto.
    + by rewrite (get_env_variables_Raise _ _ _ _ _ Hrun).
Qed.

(** X12: the order of the files and their repetitions do not matter: two
    lists with the same files give the same result, exception included. *)
Theorem same_files_same_result order T files1 files2 platform_name :
  (∀ f, f ∈ files1 ↔ f ∈ files2) →
  get_env_variables order T files1 platform_name =
  get_env_variables order T files2 platform_name.
Proof.
  intros Hsame.
  assert (get_modified_projects T files1 = get_modified_projects T files2) as Hm.
  { destruct (get_modified_projects T files1) as [m1|e1] eqn:H1;
      destruct (get_modified_projects T files2) as [m2|e2] eqn:H2.
    - f_equal. apply set_eq. intros p.
      rewrite (elem_of_get_modified_projects _ _ _ H1 p).
      rewrite (elem_of_get_modified_projects _ _ _ H2 p).
      by setoid_rewrite Hsame.
    - assert (∃ m, get_modified_projects T files2 = Ok m) as [m Hm]; [|congruence].
      apply get_modified_projects_Ok_iff. intros f Hf.
      assert (∃ m, get_modified_projects T files1 = Ok m) as Hex by eauto.
      rewrite get_modified_projects_Ok_iff in Hex. apply Hex. by apply Hsame.
    - assert (∃ m, get_modified_projects T files1 = Ok m) as [m Hm]; [|congruence].
      apply get_modified_projects_Ok_iff. intros f Hf.
      assert (∃ m, get_modified_projects T files2 = Ok m) as Hex by eauto.
      rewrite get_modified_projects_Ok_iff in Hex. apply Hex. by apply Hsame.
    - apply get_modified_projects_Raise in H1, H2. congruence. }
  unfold get_env_variables, compute_selection. by rewrite Hm.
Qed.

Lemma same_files_same_result_witness :
  get_env_variables elements_order llvm_tables
    ["bolt/a.cpp"; "mlir/b.cpp"; "bolt/a.cpp"] "Linux" =
  get_env_variables elements_order llvm_tables ["mlir/b.cpp"; "bolt/a.cpp"] "Linux".
Proof.
  apply (same_files_same_result elements_order llvm_tables
           ["bolt/a.cpp"; "mlir/b.cpp"; "bolt/a.cpp"] ["mlir/b.cpp"; "bolt/a.cpp"]
           "Linux").
  intros f. rewrite !elem_of_cons, !elem_of_nil. tauto.
Defined.

(** ** The runtimes *)

(** X1: a runtime is to be tested exactly when the table of runtimes to test
    has it under some modified project and the platform does not exclude it.
    Unlike for the projects, a modified project is not skipped for being a
    runtime, and having a check target plays no part. *)
Theorem runtimes_to_test_spec order T modified platform_name r :
  r ∈ _compute_runtimes_to_test order T modified platform_name ↔
  (∃ m runtimes, m ∈ modified ∧
     DEPENDENT_RUNTIMES_TO_TEST T !! m = Some runtimes ∧ r ∈ runtimes) ∧
  r ∉ default ∅ (exclusions T !! platform_name).
Proof.
  rewrite elem_of_compute_runtimes_to_test. unfold maps_to, excluded_on. naive_solver.
Qed.

(** X2: the same for the runtimes whose tests need a reconfiguration, from
    their own table. *)
Theorem runtimes_to_test_needs_reconfig_spec order T modified platform_name r :
  r ∈ _compute_runtimes_to_test_needs_reconfig order T modified platform_name ↔
  (∃ m runtimes, m ∈ modified ∧
     DEPENDENT_RUNTIMES_TO_TEST_NEEDS_RECONFIG T !! m = Some runtimes ∧ r ∈ runtimes) ∧
  r ∉ default ∅ (exclusions T !! platform_name).
Proof.
  rewrite elem_of_compute_runtimes_to_test_needs_reconfig.
  unfold maps_to, excluded_on. naive_solver.
Qed.

(** X3: a runtime is to be built exactly when it is one of the runtimes
    passed in or the table of runtimes to build has it under some modified
    project, and the platform does not exclude it: the exclusion also removes
    runtimes that were passed in. *)
Theorem runtimes_to_build_spec order T runtimes_to_test modified platform_name r :
  r ∈ _compute_runtimes_to_build order T runtimes_to_test modified platform_name ↔
  (r ∈ runtimes_to_test ∨
   ∃ m runtimes, m ∈ modified ∧
     DEPENDENT_RUNTIMES_TO_BUILD T !! m = Some runtimes ∧ r ∈ runtimes) ∧
  r ∉ default ∅ (exclusions T !! platform_name).
Proof.
  rewrite elem_of_compute_runtimes_to_build. unfold maps_to, excluded_on. naive_solver.
Qed.

(** X4: what a run tests it also builds: every runtime to test, with or
    without reconfiguration, is a runtime to build, and every project to test
    is a project to build unless it is in the build-skip list. *)
Theorem tested_is_built order T files platform_name sel :
  compute_selection order T files platform_name = Ok sel →
  sel_runtimes_to_test sel ∪ sel_runtimes_to_test_reconfig sel
    ⊆ sel_runtimes_to_build sel ∧
  ∀ p, p ∈ sel_projects_to_test sel → p ∉ SKIP_BUILD_PROJECTS T →
       p ∈ sel_projects_to_build sel.
Proof.
  intros (m & _ & [Ht Hr Hrr Hb Hp])%compute_selection_inv. split.
  - intros r Hin. apply Hb. split; [by left|].
    apply elem_of_union in Hin as [Hin%Hr|Hin%Hrr]; tauto.
  - intros p Hin Hskip. apply Hp. split; [|done]. left. by exists p.
Qed.

Lemma tested_is_built_witness :
  ∃ sel,
    compute_selection elements_order llvm_tables ["clang/CMakeLists.txt"] "Linux"
      = Ok sel ∧
    sel_runtimes_to_test sel ∪ sel_runtimes_to_test_reconfig sel
      ⊆ sel_runtimes_to_build sel ∧
    ∀ p, p ∈ sel_projects_to_test sel → p ∉ SKIP_BUILD_PROJECTS llvm_tables →
         p ∈ sel_projects_to_build sel.
Proof.
  eexists. split; [vm_compute; reflexivity|].
  apply (tested_is_built elements_order llvm_tables ["clang/CMakeLists.txt"] "Linux").
  vm_compute. reflexivity.
Defined.

(** ** The dependency closure *)

(** X5: [_add_dependencies] always returns: its loop ends.  The set it
    returns holds exactly the names that can be reached from [projects] along
    dependencies, in any number of steps, and the direct dependencies of the
    [runtimes]. *)
Theorem add_dependencies_returns_closure order T projects runtimes :
  ∃ r,
    _add_dependencies order T projects runtimes = Ok r ∧
    ∀ x, x ∈ r ↔
      (∃ p, p ∈ projects ∧ rtc (depends_on T) p x) ∨
      (∃ q, q ∈ runtimes ∧ depends_on T q x).
Proof. apply add_dependencies_spec. Qed.

(** X6: without runtimes, [_add_dependencies] returns the least set that
    holds [projects] and the direct dependencies of all its members. *)
Theorem add_dependencies_least_closed order T projects :
  ∃ r,
    _add_dependencies order T projects ∅ = Ok r ∧
    projects ⊆ r ∧
    closed T r ∧
    ∀ s, projects ⊆ s → closed T s → r ⊆ s.
Proof.
  destruct (add_dependencies_spec order T projects ∅) as (r & Hr & Hspec).
  exists r. split; [done|]. split; [|split].
  - intros p Hp. apply Hspec. left. by exists p.
  - intros p d [(q & Hq & Hqp)|(q & Hq & _)]%Hspec Hd.
    + apply Hspec. left. exists q. split; [done|]. by eapply rtc_r.
    + by apply elem_of_empty in Hq.
  - intros s Hsub Hclosed x [(q & Hq & Hqx)|(q & Hq & _)]%Hspec.
    + eapply closed_rtc; eauto.
    + by apply elem_of_empty in Hq.
Qed.

(** ** The matcher *)

(** X7: a match is a match of a prefix: a pattern that matches a path
    matches every path that continues it. *)
Theorem path_matches_longer_path matcher file_path more :
  _path_matches matcher file_path = true →
  _path_matches matcher (file_path ++ more) = true.
Proof.
  rewrite !_path_matches_spec. intros [Hlen Hall]. split.
  - rewrite length_app. lia.
  - intros i seg Hi. destruct (Hall i seg Hi) as [?|Hpath]; [by left|right].
    by apply lookup_app_l_Some.
Qed.

Lemma path_matches_longer_path_witness :
  _path_matches ["*"; "docs"] (["llvm"; "docs"] ++ ["CIBestPractices.rst"]) = true.
Proof.
  apply (path_matches_longer_path ["*"; "docs"] ["llvm"; "docs"]
           ["CIBestPractices.rst"]).
  vm_compute. reflexivity.
Defined.

(** X8: a pattern without a wildcard matches exactly the paths that begin
    with its segments. *)
Theorem path_matches_without_wildcard matcher file_path :
  "*" ∉ matcher →
  (_path_matches matcher file_path = true ↔ matcher `prefix_of` file_path).
Proof.
  intros Hstar. rewrite _path_matches_spec. split.
  - intros [Hlen Hall]. exists (drop (length matcher) file_path).
    rewrite <- (take_drop (length matcher) file_path) at 1. f_equal.
    apply list_eq. intros i.
    destruct (decide (i < length matcher)) as [Hi|Hi].
    + rewrite lookup_take_lt by done.
      destruct (lookup_lt_is_Some_2 matcher i Hi) as [seg Hseg].
      destruct (Hall i seg Hseg) as [->|Hpath]; [|congruence].
      destruct Hstar. by eapply list_elem_of_lookup_2.
    + rewrite lookup_take_ge by lia. symmetry. apply lookup_ge_None. lia.
  - intros [k ->]. split.
    + rewrite length_app. lia.
    + intros i seg Hi. right. by apply lookup_app_l_Some.
Qed.

Lemma path_matches_without_wildcard_witness :
  _path_matches ["llvm"; "utils"; "gn"] ["llvm"; "utils"; "gn"; "build"; "BUILD.gn"]
    = true ↔
  ["llvm"; "utils"; "gn"] `prefix_of` ["llvm"; "utils"; "gn"; "build"; "BUILD.gn"].
Proof.
  apply (path_matches_without_wildcard ["llvm"; "utils"; "gn"]
           ["llvm"; "utils"; "gn"; "build"; "BUILD.gn"]).
  compute_done.
Defined.

(** ** Runs that select nothing *)

Lemma iter_empty (order : IterOrder) : order ∅ = [].
Proof.
  apply Permutation_nil_r. rewrite (iter_perm order ∅). by rewrite elements_empty.
Qed.

Lemma render_empty order T sel :
  sel_projects_to_test sel = ∅ →
  sel_runtimes_to_test sel = ∅ →
  sel_runtimes_to_test_reconfig sel = ∅ →
  sel_runtimes_to_build sel = ∅ →
  sel_projects_to_build sel = ∅ →
  render order T sel = empty_env.
Proof.
  intros Ht Hr Hrr Hb Hp. unfold render, check_targets_of.
  rewrite Ht, Hr, Hrr, Hb, Hp, iter_empty. done.
Qed.

Lemma unknown_maps_to T x p :
  unknown_project T x →
  (∀ platform_name, ¬ adds_to_test T platform_name x p) ∧
  ¬ maps_to (DEPENDENT_RUNTIMES_TO_TEST T) x p ∧
  ¬ maps_to (DEPENDENT_RUNTIMES_TO_TEST_NEEDS_RECONFIG T) x p ∧
  ¬ maps_to (DEPENDENT_RUNTIMES_TO_BUILD T) x p.
Proof.
  intros (Hc & Hd & Hr & Hrr & Hb). unfold adds_to_test, maps_to.
  rewrite Hc, Hd, Hr, Hrr, Hb. split; [|split; [|split]].
  - intros platform_name (_ & [[_ Hsome]|[(names & Hnames & _) _]]).
    + by eapply is_Some_None.
    + done.
  - by intros (names & Hnames & _).
  - by intros (names & Hnames & _).
  - by intros (names & Hnames & _).
Qed.

Lemma selection_of_unknown T platform_name m sel :
  (∀ x, x ∈ m → unknown_project T x) →
  selection_spec T platform_name m sel →
  sel_projects_to_test sel = ∅ ∧
  sel_runtimes_to_test sel = ∅ ∧
  sel_runtimes_to_test_reconfig sel = ∅ ∧
  sel_runtimes_to_build sel = ∅ ∧
  sel_projects_to_build sel = ∅.
Proof.
  intros Hunknown [Ht Hr Hrr Hb Hp].
  assert (sel_projects_to_test sel = ∅) as Et.
  { apply set_eq. intros p. rewrite Ht, elem_of_empty. split; [|done].
    intros [(x & Hx & Hadd) _].
    destruct (unknown_maps_to T x p (Hunknown x Hx)) as (Hno & _).
    by eapply Hno. }
  assert (sel_runtimes_to_test sel = ∅) as Er.
  { apply set_eq. intros p. rewrite Hr, elem_of_empty. split; [|done].
    intros [(x & Hx & Hadd) _].
    by destruct (unknown_maps_to T x p (Hunknown x Hx)) as (_ & Hno & _). }
  assert (sel_runtimes_to_test_reconfig sel = ∅) as Err.
  { apply set_eq. intros p. rewrite Hrr, elem_of_empty. split; [|done].
    intros [(x & Hx & Hadd) _].
    by destruct (unknown_maps_to T x p (Hunknown x Hx)) as (_ & _ & Hno & _). }
  assert (sel_runtimes_to_build sel = ∅) as Eb.
  { apply set_eq. intros p. rewrite Hb, Er, Err, elem_of_empty. split; [|done].
    intros [[Hin|(x & Hx & Hadd)] _]; [set_solver|].
    by destruct (unknown_maps_to T x p (Hunknown x Hx)) as (_ & _ & _ & Hno). }
  repeat (split; [done|]).
  apply set_eq. intros p. rewrite Hp, Et, Eb, elem_of_empty. split; [|done].
  intros [[(q & Hq & _)|(q & Hq & _)] _]; by apply elem_of_empty in Hq.
Qed.

Lemma unknown_selects_nothing order T files platform_name m :
  get_modified_projects T files = Ok m →
  (∀ x, x ∈ m → unknown_project T x) →
  get_env_variables order T files platform_name = Ok empty_env.
Proof.
  intros Hm Hunknown.
  destruct (compute_selection_Ok order T files platform_name m Hm) as (sel & Hsel & Hspec).
  rewrite (get_env_variables_Ok _ _ _ _ _ Hsel). f_equal.
  destruct (selection_of_unknown T platform_name m sel Hunknown Hspec)
    as (? & ? & ? & ? & ?).
  by apply render_empty.
Qed.

(** X13: files that resolve only to names that no table has as a key select
    nothing: the run returns the five empty strings and [OFF], on every
    platform. *)
Theorem unknown_projects_select_nothing order T files platform_name modified_projects :
  get_modified_projects T files = Ok modified_projects →
  (∀ x, x ∈ modified_projects → unknown_project T x) →
  get_env_variables order T files platform_name = Ok empty_env.
Proof. apply unknown_selects_nothing. Qed.

Lemma unknown_projects_select_nothing_witness :
  get_env_variables elements_order llvm_tables
    ["README.md"; "llvm-libgcc/CMakeLists.txt"] "Linux" = Ok empty_env.
Proof.
  apply (unknown_projects_select_nothing elements_order llvm_tables
           ["README.md"; "llvm-libgcc/CMakeLists.txt"] "Linux"
           (names ["README.md"; "llvm-libgcc"])).
  - vm_compute. reflexivity.
  - intros x Hx. apply elem_of_list_to_set in Hx.
    apply elem_of_cons in Hx as [->|Hx]; [vm_compute; auto|].
    apply elem_of_cons in Hx as [->|Hx]; [vm_compute; auto|].
    by apply elem_of_nil in Hx.
Defined.

(** X14: a run on no file returns the five empty strings and [OFF], whatever
    the tables and the platform. *)
Theorem no_file_selects_nothing order T platform_name :
  get_env_variables order T [] platform_name = Ok empty_env.
Proof.
  apply (unknown_selects_nothing order T [] platform_name ∅); [done|].
  intros x Hx. by apply elem_of_empty in Hx.
Qed.

(** X15: a change that touches runtimes only tests no project: the string of
    project check targets is empty, and the projects to build are the direct
    dependencies of the runtimes to build, less the build-skip list, with no
    further expansion. *)
Theorem runtimes_only_change order T files platform_name modified_projects sel :
  get_modified_projects T files = Ok modified_projects →
  modified_projects ⊆ RUNTIMES T →
  compute_selection order T files platform_name = Ok sel →
  sel_projects_to_test sel = ∅ ∧
  project_check_targets (render order T sel) = "" ∧
  ∀ p, p ∈ sel_projects_to_build sel ↔
    (∃ q, q ∈ sel_runtimes_to_build sel ∧ depends_on T q p) ∧
    p ∉ SKIP_BUILD_PROJECTS T.
Proof.
  intros Hm Hrt (m & Hm' & [Ht _ _ _ Hp])%compute_selection_inv.
  assert (m = modified_projects) as -> by congruence.
  assert (sel_projects_to_test sel = ∅) as Et.
  { apply set_eq. intros p. rewrite Ht, elem_of_empty. split; [|done].
    intros [(x & Hx & Hnot & _) _]. apply Hnot. by apply Hrt. }
  split; [done|]. split.
  - unfold render, check_targets_of. simpl. by rewrite Et, iter_empty.
  - intros p. rewrite Hp, Et. split; [|tauto].
    intros [[(q & Hq & _)|Hq] Hskip]; [by apply elem_of_empty in Hq|done].
Qed.

Lemma runtimes_only_change_witness :
  ∃ sel,
    compute_selection elements_order llvm_tables ["libc/CMakeLists.txt"] "Linux"
      = Ok sel ∧
    sel_projects_to_test sel = ∅ ∧
    project_check_targets (render elements_order llvm_tables sel) = "" ∧
    ∀ p, p ∈ sel_projects_to_build sel ↔
      (∃ q, q ∈ sel_runtimes_to_build sel ∧ depends_on llvm_tables q p) ∧
      p ∉ SKIP_BUILD_PROJECTS llvm_tables.
Proof.
  eexists. split; [vm_compute; reflexivity|].
  apply (runtimes_only_change elements_order llvm_tables ["libc/CMakeLists.txt"]
           "Linux" (names ["libc"])).
  - vm_compute. reflexivity.
  - compute_done.
  - vm_compute. reflexivity.
Defined.

(** X19: a modified project that is not a runtime, has a check target and is
    not excluded on the platform is tested, on every platform: the Windows
    subset is taken off the dependents of a project, not off the modified
    projects themselves. *)
Theorem modified_project_is_tested order T modified platform_name m :
  m ∈ modified →
  m ∉ RUNTIMES T →
  is_Some (PROJECT_CHECK_TARGETS T !! m) →
  m ∉ default ∅ (exclusions T !! platform_name) →
  m ∈ _compute_projects_to_test order T modified platform_name.
Proof.
  intros Hm Hrt Htarget Hex. apply elem_of_compute_projects_to_test.
  split; [|done]. exists m. split; [done|]. split; [done|]. by left.
Qed.

Lemma modified_project_is_tested_witness :
  "flang" ∈ EXCLUDE_DEPENDENTS_WINDOWS llvm_tables ∧
  "flang" ∈ _compute_projects_to_test elements_order llvm_tables (names ["flang"])
              "Windows".
Proof.
  split; [compute_done|].
  apply (modified_project_is_tested elements_order llvm_tables (names ["flang"])
           "Windows" "flang").
  - compute_done.
  - compute_done.
  - vm_compute. eauto.
  - compute_done.
Defined.

(** ** The environment builder *)

(** X16: the strings [projects_to_build] and [runtimes_to_build] list the
    members of their sets, once each, in ascending order, with [;] between
    them. *)
Theorem build_lists_in_name_order order T sel :
  in_name_order (sel_projects_to_build sel) (projects_to_build (render order T sel)) ∧
  in_name_order (sel_runtimes_to_build sel) (runtimes_to_build (render order T sel)).
Proof.
  assert (∀ s, in_name_order s (join ";" (sorted (order s)))) as Hone.
  { intros s. eexists. split; [done|]. split; [apply sorted_Sorted|].
    assert (sorted (order s) ≡ₚ elements s) as Hperm.
    { by rewrite sorted_Permutation, (iter_perm order). }
    split.
    - rewrite Hperm. apply NoDup_elements.
    - intros x. by rewrite Hperm, elem_of_elements. }
  split; apply Hone.
Qed.

(** X17: no name of the build-skip list is in [projects_to_build], also when
    it is a project to test or a dependency of one. *)
Theorem skipped_build_projects_are_not_built order T files platform_name sel p :
  compute_selection order T files platform_name = Ok sel →
  p ∈ SKIP_BUILD_PROJECTS T →
  p ∉ sel_projects_to_build sel.
Proof.
  intros (m & _ & [_ _ _ _ Hp])%compute_selection_inv Hskip Hin.
  apply Hp in Hin. tauto.
Qed.

Lemma skipped_build_projects_are_not_built_witness :
  ∃ sel,
    compute_selection elements_order llvm_tables ["llvm/utils/lit/CMakeLists.txt"]
      "Linux" = Ok sel ∧
    "lit" ∈ sel_projects_to_test sel ∧
    "lit" ∉ sel_projects_to_build sel.
Proof.
  eexists. split; [vm_compute; reflexivity|]. split; [compute_done|].
  apply (skipped_build_projects_are_not_built elements_order llvm_tables
           ["llvm/utils/lit/CMakeLists.txt"] "Linux" _ "lit").
  - vm_compute. reflexivity.
  - compute_done.
Defined.

(** X18: [enable_cir] is [ON] exactly when [CIR] is left in the projects to
    build after the discards; so with [CIR] in the build-skip list the flag
    is [OFF] on every input. *)
Theorem enable_cir_after_discards order T files platform_name env :
  get_env_variables order T files platform_name = Ok env →
  (∃ sel, compute_selection order T files platform_name = Ok sel ∧
          (enable_cir env = "ON" ↔ "CIR" ∈ sel_projects_to_build sel) ∧
          (enable_cir env = "OFF" ↔ "CIR" ∉ sel_projects_to_build sel)) ∧
  ("CIR" ∈ SKIP_BUILD_PROJECTS T → enable_cir env = "OFF").
Proof.
  unfold get_env_variables. intros Hrun.
  destruct (compute_selection order T files platform_name) as [sel|] eqn:Hsel; [|done].
  simpl in Hrun. injection Hrun as <-.
  assert ((enable_cir (render order T sel) = "ON" ↔ "CIR" ∈ sel_projects_to_build sel) ∧
          (enable_cir (render order T sel) = "OFF" ↔ "CIR" ∉ sel_projects_to_build sel))
    as [Hon Hoff].
  { unfold render. simpl. case_bool_decide; split; split; done. }
  split; [by exists sel|].
  intros Hskip. apply Hoff.
  apply compute_selection_inv in Hsel as (m & _ & [_ _ _ _ Hp]).
  intros Hin%Hp. tauto.
Qed.

Lemma enable_cir_after_discards_witness :
  ∃ env,
    get_env_variables elements_order (with_skip_build llvm_tables ["CIR"; "lit"])
      ["clang/lib/CIR/CMakeLists.txt"] "Linux" = Ok env ∧
    projects_to_build env = "clang;clang-tools-extra;lld;lldb;llvm;mlir" ∧
    enable_cir env = "OFF".
Proof.
  eexists. split; [vm_compute; reflexivity|]. split; [reflexivity|].
  eapply (enable_cir_after_discards elements_order
            (with_skip_build llvm_tables ["CIR"; "lit"])
            ["clang/lib/CIR/CMakeLists.txt"] "Linux").
  - vm_compute. reflexivity.
  - compute_done.
Defined.

(** ** Where the selected names come from *)

(** X20: every project to build is a project to test or a name that the
    dependency table lists as a dependency of some name; the closure brings
    in nothing else. *)
Theorem built_projects_are_tested_or_dependencies order T files platform_name sel p :
  compute_selection order T files platform_name = Ok sel →
  p ∈ sel_projects_to_build sel →
  p ∈ sel_projects_to_test sel ∨ ∃ q, depends_on T q p.
Proof.
  intros (m & _ & [_ _ _ _ Hp])%compute_selection_inv
         [[(q & Hq & Hqp)|(q & _ & Hqp)] _]%Hp.
  - apply rtc_inv_r in Hqp as [<-|(q' & _ & Hdep)]; [by left|right; eauto].
  - right. eauto.
Qed.

Lemma built_projects_are_tested_or_dependencies_witness :
  ∃ sel,
    compute_selection elements_order llvm_tables ["bolt/CMakeLists.txt"] "Linux"
      = Ok sel ∧
    ("lld" ∈ sel_projects_to_test sel ∨ ∃ q, depends_on llvm_tables q "lld").
Proof.
  eexists. split; [vm_compute; reflexivity|].
  apply (built_projects_are_tested_or_dependencies elements_order llvm_tables
           ["bolt/CMakeLists.txt"] "Linux").
  - vm_compute. reflexivity.
  - compute_done.
Defined.

(** X21: on Windows a project of [EXCLUDE_DEPENDENTS_WINDOWS] is tested only
    when it is itself modified: it never comes in as a dependent. *)
Theorem windows_dependents_subset_needs_own_change order T modified p :
  p ∈ _compute_projects_to_test order T modified "Windows" →
  p ∈ EXCLUDE_DEPENDENTS_WINDOWS T →
  p ∈ modified ∧ (p ∉ RUNTIMES T) ∧ is_Some (PROJECT_CHECK_TARGETS T !! p).
Proof.
  intros [(m & Hm & Hrt & Hadd) _]%elem_of_compute_projects_to_test Hwin.
  destruct Hadd as [[-> Htarget]|[_ Hnot]]; [done|].
  destruct Hnot; done.
Qed.

Lemma windows_dependents_subset_needs_own_change_witness :
  "flang" ∈ names ["flang"; "llvm"] ∧
  ("flang" ∉ RUNTIMES llvm_tables) ∧
  is_Some (PROJECT_CHECK_TARGETS llvm_tables !! "flang").
Proof.
  apply (windows_dependents_subset_needs_own_change elements_order llvm_tables
           (names ["flang"; "llvm"]) "flang").
  - compute_done.
  - compute_done.
Defined.

(** ** Platform exclusion on the tables of the repository *)










(** ** One more file that does not resolve *)

(** C8, where the code departs from it: when the file that is added has a
    path without segments, and no entry with the empty pattern names a
    project to skip, the run on the longer list raises [IndexError] although
    the run on the shorter list returned: every output of the shorter run is
    lost. *)
Theorem one_more_file_can_lose_every_output order T before file after platform_name
    sel1 :
  compute_selection order T (before ++ after) platform_name = Ok sel1 →
  path_parts file = [] →
  ¬ skip_match T (META_PROJECTS T) [] →
  get_env_variables order T (before ++ after) platform_name
    = Ok (render order T sel1) ∧
  get_env_variables order T (before ++ file :: after) platform_name
    = Raise IndexError.
Proof.
  intros Hsel Hparts Hno. split; [by apply get_env_variables_Ok|].
  assert (_get_modified_projects_for_file T file = Raise IndexError) as Hfile.
  { by apply resolve_Raise_iff. }
  destruct (get_modified_projects T (before ++ file :: after)) as [m|e] eqn:Hm.
  - assert (∃ m, get_modified_projects T (before ++ file :: after) = Ok m) as Hex
      by eauto.
    rewrite get_modified_projects_Ok_iff in Hex.
    destruct (Hex file) as [ps Hps]; [|congruence].
    rewrite elem_of_app, elem_of_cons. auto.
  - unfold get_env_variables.
    rewrite (compute_selection_Raise order T _ _ e Hm). simpl.
    by rewrite (get_modified_projects_Raise _ _ _ Hm).
Qed.

Lemma one_more_file_can_lose_every_output_witness :
  ∃ sel1,
    compute_selection elements_order llvm_tables ["bolt/CMakeLists.txt"] "Linux"
      = Ok sel1 ∧
    projects_to_build (render elements_order llvm_tables sel1) = "bolt;clang;lld;llvm" ∧
    get_env_variables elements_order llvm_tables ["bolt/CMakeLists.txt"] "Linux"
      = Ok (render elements_order llvm_tables sel1) ∧
    get_env_variables elements_order llvm_tables ["bolt/CMakeLists.txt"; ""] "Linux"
      = Raise IndexError.
Proof.
  eexists. split; [vm_compute; reflexivity|]. split; [vm_compute; reflexivity|].
  apply (one_more_file_can_lose_every_output elements_order llvm_tables
           ["bolt/CMakeLists.txt"] "" [] "Linux").
  - vm_compute. reflexivity.
  - vm_compute. reflexivity.
  - apply no_skip_matchb_spec. vm_compute. reflexivity.
Defined.
